(** * Flashcard Frenzy: room lifecycle and scoring

    A shallow embedding of the game's client logic (the [GameRoom] and
    [GameLobby] React components) over an in-memory model of the five
    tables declared by the SQL migrations, together with the properties
    of the room lifecycle and of the scoring state machine.

    Conventions.
    - A JavaScript string is a sequence of UTF-16 code units; the model
      covers the strings whose code units are below 256 and represents
      them as [string], one [ascii] per code unit.
    - A [uuid] column is a [string]; a [bigint]/[integer]/[number] is a [Z].
    - The timestamp columns ([created_at], [joined_at], [completed_at])
      are filled by the store and read by no component: they are left out.
    - Every call to the record store takes the store's fault for that
      call ([None]: the store executes the statement; [Some e]: it answers
      with the error [e] and the statement has no effect).  Row
      identifiers drawn by [gen_random_uuid()] are arguments as well. *)

From Stdlib Require Import String Ascii List ZArith NArith Bool Lia.
From Stdlib Require Import Sorted Permutation.
Import ListNotations.

Open Scope string_scope.

(** ** JavaScript strings *)

Module Js.

(** The code unit of a character. *)
Definition charCode (c : ascii) : N := N_of_ascii c.

(** WhiteSpace and LineTerminator code points below 256, the ones
    [String.prototype.trim] strips: TAB, LF, VT, FF, CR, SP, NBSP. *)
Definition isWhiteSpace (c : ascii) : bool :=
  let n := charCode c in
  ((n =? 9) || (n =? 10) || (n =? 11) || (n =? 12) || (n =? 13)
   || (n =? 32) || (n =? 160))%N.

(** Upper-case letters below 256: A-Z, and the Latin-1 capitals
    U+00C0..U+00DE without the multiplication sign U+00D7. *)
Definition isUpper (c : ascii) : bool :=
  let n := charCode c in
  (((65 <=? n) && (n <=? 90))
   || ((192 <=? n) && (n <=? 222) && negb (n =? 215)))%N.

Definition toLowerChar (c : ascii) : ascii :=
  if isUpper c then ascii_of_N (charCode c + 32) else c.

(** [String.prototype.toLowerCase]. *)
Fixpoint toLowerCase (s : string) : string :=
  match s with
  | EmptyString => EmptyString
  | String c s' => String (toLowerChar c) (toLowerCase s')
  end.

Fixpoint trimStart (s : string) : string :=
  match s with
  | EmptyString => EmptyString
  | String c s' => if isWhiteSpace c then trimStart s' else s
  end.

Fixpoint trimEnd (s : string) : string :=
  match s with
  | EmptyString => EmptyString
  | String c s' =>
      match trimEnd s' with
      | EmptyString => if isWhiteSpace c then EmptyString
                       else String c EmptyString
      | t => String c t
      end
  end.

(** [String.prototype.trim]. *)
Definition trim (s : string) : string := trimEnd (trimStart s).

(** Truthiness of a string: the empty string is the only falsy one. *)
Definition truthy (s : string) : bool := negb (s =? "").

(** A string made of white space only. *)
Fixpoint allWhiteSpace (s : string) : bool :=
  match s with
  | EmptyString => true
  | String c s' => isWhiteSpace c && allWhiteSpace s'
  end.

Definition startsWithWhiteSpace (s : string) : bool :=
  match s with
  | EmptyString => false
  | String c _ => isWhiteSpace c
  end.

Fixpoint endsWithWhiteSpace (s : string) : bool :=
  match s with
  | EmptyString => false
  | String c EmptyString => isWhiteSpace c
  | String _ s' => endsWithWhiteSpace s'
  end.

(** [s.split('@')[0]]: what comes before the first [@]. *)
Fixpoint split_at_0 (s : string) : string :=
  match s with
  | EmptyString => EmptyString
  | String c s' =>
      if (charCode c =? 64)%N then EmptyString else String c (split_at_0 s')
  end.

(** [a || b] on strings, [a] possibly [undefined]. *)
Definition or_else (a : option string) (b : string) : string :=
  match a with
  | Some v => if truthy v then v else b
  | None => b
  end.

(** The double quote. *)
Definition dquote : string := String (ascii_of_N 34) EmptyString.

End Js.

(** ** The answer check of [submitAnswer]

    [userAnswer.toLowerCase().trim()
       === currentCard.answer.toLowerCase().trim()] *)

Definition isCorrect (userAnswer answer : string) : bool :=
  Js.trim (Js.toLowerCase userAnswer) =? Js.trim (Js.toLowerCase answer).

(** The comparison in the words of the specification: a string is white
    space, a core that neither starts nor ends with white space, and
    white space again; two strings match when their cores are the same
    up to the case of the letters. *)
Definition core_of (s core : string) : Prop :=
  exists l r,
    s = l ++ core ++ r
    /\ Js.allWhiteSpace l = true /\ Js.allWhiteSpace r = true
    /\ Js.startsWithWhiteSpace core = false
    /\ Js.endsWithWhiteSpace core = false.

Definition same_up_to_case_and_surrounding_space (userAnswer answer : string)
  : Prop :=
  exists cu ca,
    core_of userAnswer cu /\ core_of answer ca
    /\ Js.toLowerCase cu = Js.toLowerCase ca.

(** ** The tables of the record store

    One record per table of the migrations, with the columns of the
    [Database] type of [lib/supabase]. *)

Definition UUID := string.

Module Users.
Record Row := { id : UUID; email : string; username : string }.
End Users.

Module Flashcards.
Record Row :=
  { id : Z; question : string; answer : string; category : string }.
End Flashcards.

Module GameRooms.
Record Row :=
  { id : UUID; name : string; host_id : UUID; is_active : bool;
    current_card_id : option Z }.
End GameRooms.

Module GamePlayers.
Record Row := { id : UUID; room_id : UUID; user_id : UUID; score : Z }.
End GamePlayers.

Module MatchHistory.
Record Row :=
  { id : UUID; room_id : UUID; card_id : Z; winner_id : option UUID }.
End MatchHistory.

Record Store :=
  { users : list Users.Row;
    flashcards : list Flashcards.Row;
    game_rooms : list GameRooms.Row;
    game_players : list GamePlayers.Row;
    match_history : list MatchHistory.Row }.

(** ** Responses of the store *)

Module Postgrest.

(** The structured error of a response, with its machine-readable code. *)
Record PostgrestError := { code : string; message : string }.

(** [{ data, error }]: [data] is [null] when the statement failed. *)
Record Response (A : Type) :=
  { data : option A; error : option PostgrestError }.
Arguments data {A} _.
Arguments error {A} _.

Definition ok {A : Type} (a : A) : Response A :=
  {| data := Some a; error := None |}.
Definition failed {A : Type} (e : PostgrestError) : Response A :=
  {| data := None; error := Some e |}.

(** Errors the store raises on its own constraints. *)
Definition unique_violation : PostgrestError :=
  {| code := "23505";
     message := "duplicate key value violates unique constraint" |}.
Definition foreign_key_violation : PostgrestError :=
  {| code := "23503";
     message := "insert or update violates foreign key constraint" |}.
Definition numeric_value_out_of_range : PostgrestError :=
  {| code := "22003"; message := "integer out of range" |}.
(** [.single()] on a result that is not exactly one row. *)
Definition not_a_single_row : PostgrestError :=
  {| code := "PGRST116";
     message := "JSON object requested, multiple (or no) rows returned" |}.

(** The result of [.single()]. *)
Definition single {A : Type} (rows : list A) : Response A :=
  match rows with
  | [row] => ok row
  | _ => failed not_a_single_row
  end.

End Postgrest.
Import Postgrest.

(** ** Statements

    The statements the components send, with the constraints the
    migrations declare: [UNIQUE(room_id, user_id)] on [game_players], the
    unique keys of [users], the foreign keys into [game_rooms] and
    [flashcards], and the range of the [integer] column [score].  The
    argument [fault] is the error the store answers with for a reason the
    tables do not show (transport, session, authorization); a statement
    that fails changes nothing. *)

Module Sql.

Definition room_exists (db : Store) (room : UUID) : bool :=
  existsb (fun r => GameRooms.id r =? room) (game_rooms db).

Definition card_exists (db : Store) (card : Z) : bool :=
  existsb (fun c => (Flashcards.id c =? card)%Z) (flashcards db).

Definition is_member (room user : UUID) (p : GamePlayers.Row) : bool :=
  (GamePlayers.room_id p =? room) && (GamePlayers.user_id p =? user).

(** The [integer] type of PostgreSQL. *)
Definition int4 (z : Z) : bool :=
  ((- 2147483648 <=? z) && (z <=? 2147483647))%Z.

Definition with_game_rooms (db : Store) (l : list GameRooms.Row) : Store :=
  {| users := users db; flashcards := flashcards db; game_rooms := l;
     game_players := game_players db; match_history := match_history db |}.

Definition with_game_players (db : Store) (l : list GamePlayers.Row)
  : Store :=
  {| users := users db; flashcards := flashcards db;
     game_rooms := game_rooms db; game_players := l;
     match_history := match_history db |}.

Definition with_match_history (db : Store) (l : list MatchHistory.Row)
  : Store :=
  {| users := users db; flashcards := flashcards db;
     game_rooms := game_rooms db; game_players := game_players db;
     match_history := l |}.

Definition with_users (db : Store) (l : list Users.Row) : Store :=
  {| users := l; flashcards := flashcards db;
     game_rooms := game_rooms db; game_players := game_players db;
     match_history := match_history db |}.

(** [from('game_rooms').select(column).eq('id', room).single()] *)
Definition select_room (fault : option PostgrestError) (room : UUID)
           (db : Store) : Response GameRooms.Row :=
  match fault with
  | Some e => failed e
  | None => single (filter (fun r => GameRooms.id r =? room) (game_rooms db))
  end.

(** [from('flashcards').select('*').eq('id', card).single()] *)
Definition select_flashcard (fault : option PostgrestError) (card : Z)
           (db : Store) : Response Flashcards.Row :=
  match fault with
  | Some e => failed e
  | None =>
      single (filter (fun c => (Flashcards.id c =? card)%Z) (flashcards db))
  end.

(** [from('flashcards').select('*').limit(1).order('RANDOM()')]: one
    card, the one the store's random order puts first; [pick] stands
    for that draw. *)
Definition select_random_flashcard (fault : option PostgrestError)
           (pick : nat) (db : Store) : Response (list Flashcards.Row) :=
  match fault with
  | Some e => failed e
  | None =>
      match nth_error (flashcards db) (pick mod List.length (flashcards db))
      with
      | Some c => ok [c]
      | None => ok []
      end
  end.

(** [from('game_rooms').update({ current_card_id: card }).eq('id', room)] *)
Definition update_current_card (fault : option PostgrestError)
           (room : UUID) (card : Z) (db : Store) : Store * Response unit :=
  match fault with
  | Some e => (db, failed e)
  | None =>
      if negb (existsb (fun r => GameRooms.id r =? room) (game_rooms db))
      then (db, ok tt)
      else if negb (card_exists db card)
      then (db, failed foreign_key_violation)
      else
        (with_game_rooms db
           (map (fun r =>
                   if GameRooms.id r =? room
                   then {| GameRooms.id := GameRooms.id r;
                           GameRooms.name := GameRooms.name r;
                           GameRooms.host_id := GameRooms.host_id r;
                           GameRooms.is_active := GameRooms.is_active r;
                           GameRooms.current_card_id := Some card |}
                   else r)
                (game_rooms db)),
         ok tt)
  end.

Definition set_score (newScore : Z) (p : GamePlayers.Row)
  : GamePlayers.Row :=
  {| GamePlayers.id := GamePlayers.id p;
     GamePlayers.room_id := GamePlayers.room_id p;
     GamePlayers.user_id := GamePlayers.user_id p;
     GamePlayers.score := newScore |}.

(** [from('game_players').update({ score: newScore })
      .eq('room_id', room).eq('user_id', user)] *)
Definition update_score (fault : option PostgrestError)
           (room user : UUID) (newScore : Z) (db : Store)
  : Store * Response unit :=
  match fault with
  | Some e => (db, failed e)
  | None =>
      if existsb (is_member room user) (game_players db)
         && negb (int4 newScore)
      then (db, failed numeric_value_out_of_range)
      else
        (with_game_players db
           (map (fun p => if is_member room user p
                          then set_score newScore p else p)
                (game_players db)),
         ok tt)
  end.

(** [from('game_players').insert([{ room_id: room, user_id: user }])]:
    the row gets the identifier [new_id] and the default score 0. *)
Definition insert_game_player (fault : option PostgrestError)
           (new_id room user : UUID) (db : Store) : Store * Response unit :=
  match fault with
  | Some e => (db, failed e)
  | None =>
      if existsb (is_member room user) (game_players db)
      then (db, failed unique_violation)
      else if negb (room_exists db room)
      then (db, failed foreign_key_violation)
      else
        (with_game_players db
           (game_players db ++
              [{| GamePlayers.id := new_id; GamePlayers.room_id := room;
                  GamePlayers.user_id := user; GamePlayers.score := 0 |}]),
         ok tt)
  end.

(** [from('game_players').delete().eq('room_id', room).eq('user_id', user)] *)
Definition delete_game_player (fault : option PostgrestError)
           (room user : UUID) (db : Store) : Store * Response unit :=
  match fault with
  | Some e => (db, failed e)
  | None =>
      (with_game_players db
         (filter (fun p => negb (is_member room user p)) (game_players db)),
       ok tt)
  end.

(** [from('match_history').insert([{ room_id, card_id, winner_id }])] *)
Definition insert_match_history (fault : option PostgrestError)
           (new_id room : UUID) (card : Z) (winner : UUID) (db : Store)
  : Store * Response unit :=
  match fault with
  | Some e => (db, failed e)
  | None =>
      if negb (room_exists db room) || negb (card_exists db card)
      then (db, failed foreign_key_violation)
      else
        (with_match_history db
           (match_history db ++
              [{| MatchHistory.id := new_id; MatchHistory.room_id := room;
                  MatchHistory.card_id := card;
                  MatchHistory.winner_id := Some winner |}]),
         ok tt)
  end.

(** [from('game_rooms').insert([{ name, host_id }]).select()]: the row
    gets the identifier [new_id], [is_active] true and no current card;
    the response carries the inserted row. *)
Definition insert_game_room (fault : option PostgrestError)
           (new_id : UUID) (name : string) (host : UUID) (db : Store)
  : Store * Response (list GameRooms.Row) :=
  match fault with
  | Some e => (db, failed e)
  | None =>
      let row := {| GameRooms.id := new_id; GameRooms.name := name;
                    GameRooms.host_id := host; GameRooms.is_active := true;
                    GameRooms.current_card_id := None |} in
      (with_game_rooms db (game_rooms db ++ [row]), ok [row])
  end.

(** [from('users').select('id').eq('id', user).single()] *)
Definition select_user (fault : option PostgrestError) (user : UUID)
           (db : Store) : Response Users.Row :=
  match fault with
  | Some e => failed e
  | None => single (filter (fun u => Users.id u =? user) (users db))
  end.

(** [from('users').insert([{ id, email, username }])] *)
Definition insert_user (fault : option PostgrestError) (row : Users.Row)
           (db : Store) : Store * Response unit :=
  match fault with
  | Some e => (db, failed e)
  | None =>
      if existsb (fun u => (Users.id u =? Users.id row)
                           || (Users.email u =? Users.email row)
                           || (Users.username u =? Users.username row))
                 (users db)
      then (db, failed unique_violation)
      else (with_users db (users db ++ [row]), ok tt)
  end.

End Sql.

(** ** The identity provider *)

Module Auth.

(** The [User] of the identity provider, with the fields the
    components read. *)
Record User :=
  { id : UUID; email : option string; username : option string }.

Record AuthError := { message : string }.

(** The answer of [supabase.auth.getUser()]. *)
Record UserResponse := { user : option User; error : option AuthError }.

End Auth.

(** ** What a component does besides its state and the store *)

Inductive ToastVariant := default | destructive.

(** The callback [submitAnswer] hands to [setTimeout]:
    [() => { if (isHost) startNewRound() }], closed over the [isHost] of
    the render that scheduled it. *)
Inductive Callback := advance_round (isHost : bool).

Inductive Effect :=
| console_error (label : string) (detail : string)
| alert (text : string)
| toast (title description : string) (variant : ToastVariant)
| setTimeout (callback : Callback) (ms : Z)
| onLeave.

(** The messages put before the user: alerts and toasts; the console is
    not one of them. *)
Definition user_visible (e : Effect) : bool :=
  match e with
  | alert _ | toast _ _ _ => true
  | _ => false
  end.

(** ** GameRoom *)

Module GameRoom.

(** [interface Player]: a [game_players] row with the embedded
    [users (username)]. *)
Module Player.
Record t :=
  { id : UUID; room_id : UUID; user_id : UUID; score : Z;
    users : option string }.
End Player.

Inductive FeedbackType := success | error.

Record Feedback := { message : string; type : FeedbackType }.

(** The state of the component, one field per [useState]. *)
Record State :=
  { players : list Player.t;
    currentCard : option Flashcards.Row;
    userAnswer : string;
    loading : bool;
    feedback : option Feedback;
    isHost : bool }.

(** The state of a component that has just been mounted. *)
Definition initial : State :=
  {| players := []; currentCard := None; userAnswer := "";
     loading := false; feedback := None; isHost := false |}.

Definition setPlayers (v : list Player.t) (st : State) : State :=
  {| players := v; currentCard := currentCard st;
     userAnswer := userAnswer st; loading := loading st;
     feedback := feedback st; isHost := isHost st |}.

Definition setCurrentCard (v : option Flashcards.Row) (st : State) : State :=
  {| players := players st; currentCard := v;
     userAnswer := userAnswer st; loading := loading st;
     feedback := feedback st; isHost := isHost st |}.

Definition setUserAnswer (v : string) (st : State) : State :=
  {| players := players st; currentCard := currentCard st;
     userAnswer := v; loading := loading st;
     feedback := feedback st; isHost := isHost st |}.

Definition setLoading (v : bool) (st : State) : State :=
  {| players := players st; currentCard := currentCard st;
     userAnswer := userAnswer st; loading := v;
     feedback := feedback st; isHost := isHost st |}.

Definition setFeedback (v : option Feedback) (st : State) : State :=
  {| players := players st; currentCard := currentCard st;
     userAnswer := userAnswer st; loading := loading st;
     feedback := v; isHost := isHost st |}.

Definition setIsHost (v : bool) (st : State) : State :=
  {| players := players st; currentCard := currentCard st;
     userAnswer := userAnswer st; loading := loading st;
     feedback := feedback st; isHost := v |}.

(** [score || 0] *)
Definition or_zero (score : Z) : Z := if (score =? 0)%Z then 0%Z else score.

(** Insertion of a player into a list ordered by descending score. *)
Fixpoint insert_by_score (p : Player.t) (l : list Player.t)
  : list Player.t :=
  match l with
  | [] => [p]
  | q :: l' =>
      if (Player.score q <? Player.score p)%Z then p :: l
      else q :: insert_by_score p l'
  end.

Definition order_by_score_desc (l : list Player.t) : list Player.t :=
  fold_right insert_by_score [] l.

(** [from('game_players').select('*, users (username)')
      .eq('room_id', room).order('score', { ascending: false })] *)
Definition select_players (fault : option PostgrestError) (room : UUID)
           (db : Store) : Response (list Player.t) :=
  match fault with
  | Some e => failed e
  | None =>
      ok (order_by_score_desc
            (map (fun p =>
                    {| Player.id := GamePlayers.id p;
                       Player.room_id := GamePlayers.room_id p;
                       Player.user_id := GamePlayers.user_id p;
                       Player.score := GamePlayers.score p;
                       Player.users :=
                         option_map Users.username
                           (find (fun u => Users.id u =? GamePlayers.user_id p)
                                 (users db)) |})
                 (filter (fun p => GamePlayers.room_id p =? room)
                         (game_players db))))
  end.

Section Component.

(** The props of the component. *)
Variable roomId : UUID.
Variable user : Auth.User.

Definition fetchPlayers (fault : option PostgrestError) (db : Store)
           (st : State) : State :=
  let r := select_players fault roomId db in
  match Postgrest.error r, data r with
  | None, Some d => setPlayers d st
  | _, _ => st
  end.

Definition fetchCurrentCard (fault_room fault_card : option PostgrestError)
           (db : Store) (st : State) : State :=
  let roomData := data (Sql.select_room fault_room roomId db) in
  match option_map GameRooms.current_card_id roomData with
  | Some (Some card) =>
      if (card =? 0)%Z then st
      else
        match data (Sql.select_flashcard fault_card card db) with
        | Some cardData => setCurrentCard (Some cardData) st
        | None => st
        end
  | _ => st
  end.

Definition checkIfHost (fault : option PostgrestError) (db : Store)
           (st : State) : State :=
  match data (Sql.select_room fault roomId db) with
  | Some d => setIsHost (GameRooms.host_id d =? Auth.id user) st
  | None => setIsHost false st
  end.

(** The body of [startNewRound] as a closure sees it: [host] is the
    [isHost] of the render the closure comes from. *)
Definition startNewRound_from (host : bool) (pick : nat)
           (fault_cards fault_update : option PostgrestError)
           (db : Store) (st : State) : State * Store * list Effect :=
  if negb host then (st, db, [])
  else
    let cards := data (Sql.select_random_flashcard fault_cards pick db) in
    let db' :=
      match cards with
      | Some (card :: _) =>
          fst (Sql.update_current_card fault_update roomId
                 (Flashcards.id card) db)
      | _ => db
      end in
    (setFeedback None (setUserAnswer "" (setLoading false st)), db', []).

Definition startNewRound (pick : nat)
           (fault_cards fault_update : option PostgrestError)
           (db : Store) (st : State) : State * Store * list Effect :=
  startNewRound_from (isHost st) pick fault_cards fault_update db st.

(** The score [submitAnswer] writes:
    [(players.find(p => p.user_id === user.id)?.score || 0) + 1] *)
Definition cachedScore (st : State) : Z :=
  match find (fun p => Player.user_id p =? Auth.id user) (players st) with
  | Some currentPlayer => or_zero (Player.score currentPlayer)
  | None => 0%Z
  end.

Definition newScore (st : State) : Z := (cachedScore st + 1)%Z.

(** The two statements of [submitAnswer] take a fault each and the
    identifier of the new [match_history] row.  The store answers
    every statement with a response, so the [catch] branch is not
    entered. *)
Definition submitAnswer (fault_update fault_insert : option PostgrestError)
           (match_id : UUID) (db : Store) (st : State)
  : State * Store * list Effect :=
  match currentCard st with
  | None => (st, db, [])
  | Some card =>
      if negb (Js.truthy (Js.trim (userAnswer st))) then (st, db, [])
      else
        let done (st' : State) :=
          setUserAnswer "" (setLoading false st') in
        if isCorrect (userAnswer st) (Flashcards.answer card) then
          let '(db1, r) :=
            Sql.update_score fault_update roomId (Auth.id user)
                             (newScore st) db in
          match Postgrest.error r with
          | None =>
              let db2 :=
                fst (Sql.insert_match_history fault_insert match_id roomId
                       (Flashcards.id card) (Auth.id user) db1) in
              (done (setFeedback
                       (Some {| message := "Correct! You earned a point!";
                                type := success |}) st),
               db2,
               [setTimeout (advance_round (isHost st)) 2000])
          | Some e =>
              (done (setFeedback
                       (Some {| message :=
                                  "Error updating score. Please try again.";
                                type := error |}) st),
               db1,
               [console_error "Error updating score:" (Postgrest.message e)])
          end
        else
          (done (setFeedback
                   (Some {| message :=
                              "Wrong! The correct answer was: "
                              ++ Flashcards.answer card;
                            type := error |}) st),
           db, [])
  end.

Definition leaveRoom (fault : option PostgrestError) (db : Store)
  : Store * list Effect :=
  (fst (Sql.delete_game_player fault roomId (Auth.id user) db), [onLeave]).

(** A timer that fires. *)
Definition run_callback (cb : Callback) (pick : nat)
           (fault_cards fault_update : option PostgrestError)
           (db : Store) (st : State) : State * Store * list Effect :=
  match cb with
  | advance_round host =>
      if host
      then startNewRound_from host pick fault_cards fault_update db st
      else (st, db, [])
  end.

End Component.

End GameRoom.

(** ** GameLobby

    The repository holds the lobby twice: [src/components/GameLobby.tsx]
    and an earlier [GameLobby], which reports with [alert] and creates
    the profile row of the account itself.  Both have the same state;
    they differ in the room query, in how they report errors and in what
    [createRoom] does around the two inserts. *)

Module Lobby.

(** [interface GameRoomType] (named [GameRoom] in the earlier file). *)
Record GameRoomType :=
  { id : UUID; name : string; host_id : UUID; is_active : bool;
    player_count : Z }.

Record State :=
  { rooms : list GameRoomType;
    newRoomName : string;
    activeRoom : option UUID;
    loading : bool }.

Definition initial : State :=
  {| rooms := []; newRoomName := ""; activeRoom := None;
     loading := false |}.

Definition setRooms (v : list GameRoomType) (st : State) : State :=
  {| rooms := v; newRoomName := newRoomName st;
     activeRoom := activeRoom st; loading := loading st |}.

Definition setNewRoomName (v : string) (st : State) : State :=
  {| rooms := rooms st; newRoomName := v;
     activeRoom := activeRoom st; loading := loading st |}.

Definition setActiveRoom (v : option UUID) (st : State) : State :=
  {| rooms := rooms st; newRoomName := newRoomName st;
     activeRoom := v; loading := loading st |}.

Definition setLoading (v : bool) (st : State) : State :=
  {| rooms := rooms st; newRoomName := newRoomName st;
     activeRoom := activeRoom st; loading := v |}.

(** A room of the response with its embedded [game_players (id)]. *)
Definition RoomWithPlayers : Type := GameRooms.Row * list UUID.

Definition embed_players (db : Store) (r : GameRooms.Row) : RoomWithPlayers :=
  (r, map GamePlayers.id
          (filter (fun p => GamePlayers.room_id p =? GameRooms.id r)
                  (game_players db))).

(** [from('game_rooms').select('*, game_players (id)').eq('is_active', true)]:
    the embedded resource is joined on the left, a room without players
    comes with an empty array.  The query asks for no order: the rows
    come here in the order of the table, and no statement below is about
    the order of the answer. *)
Definition select_active_rooms (fault : option PostgrestError) (db : Store)
  : Response (list RoomWithPlayers) :=
  match fault with
  | Some e => failed e
  | None =>
      ok (map (embed_players db)
              (filter GameRooms.is_active (game_rooms db)))
  end.

(** [from('game_rooms').select('*, game_players!inner (id)')
      .eq('is_active', true)]: with [!inner] a room is returned only
    if it has at least one embedded row. *)
Definition select_active_rooms_inner (fault : option PostgrestError)
           (db : Store) : Response (list RoomWithPlayers) :=
  match fault with
  | Some e => failed e
  | None =>
      ok (filter (fun rp => negb (Nat.eqb (List.length (snd rp)) 0))
                 (map (embed_players db)
                      (filter GameRooms.is_active (game_rooms db))))
  end.

(** [{ ...room, player_count:
       Array.isArray(room.game_players) ? room.game_players.length : 0 }] *)
Definition with_count (rp : RoomWithPlayers) : GameRoomType :=
  {| id := GameRooms.id (fst rp); name := GameRooms.name (fst rp);
     host_id := GameRooms.host_id (fst rp);
     is_active := GameRooms.is_active (fst rp);
     player_count := Z.of_nat (List.length (snd rp)) |}.

(** [.insert([...]).select().single()] *)
Definition single_row {A : Type} (r : Response (list A)) : Response A :=
  match Postgrest.error r, data r with
  | Some e, _ => failed e
  | None, Some rows => single rows
  | None, None => {| data := None; error := None |}
  end.

End Lobby.

(** [src/components/GameLobby.tsx] *)
Module GameLobby.
Import Lobby.

Definition fetchRooms (fault : option PostgrestError) (db : Store)
           (st : State) : State * list Effect :=
  let r := select_active_rooms fault db in
  match Postgrest.error r with
  | Some e =>
      (st, [console_error "Error fetching rooms:" (Postgrest.message e);
            toast "Error" "Could not fetch game rooms." destructive])
  | None =>
      match data r with
      | Some d => (setRooms (map with_count d) st, [])
      | None => (st, [])
      end
  end.

Definition createRoom (auth : Auth.UserResponse)
           (fault_room : option PostgrestError) (room_id : UUID)
           (fault_join : option PostgrestError) (player_id : UUID)
           (db : Store) (st : State) : State * Store * list Effect :=
  if negb (Js.truthy (Js.trim (newRoomName st))) then (st, db, [])
  else
    match Auth.user auth with
    | None =>
        (setLoading false st, db,
         [toast "Authentication Error"
                "You must be logged in to create a room." destructive])
    | Some user =>
        let '(db1, r) :=
          Sql.insert_game_room fault_room room_id (newRoomName st)
                               (Auth.id user) db in
        let r := single_row r in
        match Postgrest.error r with
        | Some e =>
            (setLoading false st, db1,
             [console_error "Error creating room:" (Postgrest.message e);
              toast "Error"
                    ("Failed to create room: " ++ Postgrest.message e)
                    destructive])
        | None =>
            match data r with
            | Some d =>
                let '(db2, rj) :=
                  Sql.insert_game_player fault_join player_id
                                         (GameRooms.id d) (Auth.id user)
                                         db1 in
                match Postgrest.error rj with
                | Some joinError =>
                    (setLoading false st, db2,
                     [console_error "Error joining room:"
                                    (Postgrest.message joinError);
                      toast "Error"
                            ("Created room but failed to join: "
                             ++ Postgrest.message joinError)
                            destructive])
                | None =>
                    (setLoading false
                       (setNewRoomName ""
                          (setActiveRoom (Some (GameRooms.id d)) st)),
                     db2,
                     [toast "Success!"
                            ("Room " ++ Js.dquote ++ newRoomName st
                             ++ Js.dquote ++ " created and joined.")
                            default])
                end
            | None => (setLoading false st, db1, [])
            end
        end
    end.

Definition joinRoom (auth : Auth.UserResponse)
           (fault : option PostgrestError) (player_id : UUID)
           (roomId : UUID) (db : Store) (st : State)
  : State * Store * list Effect :=
  match Auth.user auth with
  | None =>
      (st, db,
       [toast "Authentication Error"
              "Please sign in again to join a room." destructive])
  | Some user =>
      let '(db1, r) :=
        Sql.insert_game_player fault player_id roomId (Auth.id user) db in
      match Postgrest.error r with
      | Some e =>
          if code e =? "23505"
          then (setActiveRoom (Some roomId) st, db1,
                [console_error "Error joining room:" (Postgrest.message e)])
          else (st, db1,
                [console_error "Error joining room:" (Postgrest.message e);
                 toast "Error"
                       ("Failed to join room: " ++ Postgrest.message e)
                       destructive])
      | None => (setActiveRoom (Some roomId) st, db1, [])
      end
  end.

End GameLobby.

(** The earlier [GameLobby]. *)
Module PriorGameLobby.
Import Lobby.

Definition fetchRooms (fault : option PostgrestError) (db : Store)
           (st : State) : State :=
  let r := select_active_rooms_inner fault db in
  match Postgrest.error r, data r with
  | None, Some d => setRooms (map with_count d) st
  | _, _ => st
  end.

(** The profile row [createRoom] inserts when the account has none:
    [{ id, email: email || '',
       username: user_metadata?.username
                   || email?.split('@')[0] || 'Player' }] *)
Definition profile_of (user : Auth.User) : Users.Row :=
  {| Users.id := Auth.id user;
     Users.email := Js.or_else (Auth.email user) "";
     Users.username :=
       Js.or_else (Auth.username user)
         (Js.or_else (option_map Js.split_at_0 (Auth.email user))
                     "Player") |}.

Definition createRoom (auth : Auth.UserResponse)
           (fault_profile fault_new_profile : option PostgrestError)
           (fault_room : option PostgrestError) (room_id : UUID)
           (fault_join : option PostgrestError) (player_id : UUID)
           (db : Store) (st : State) : State * Store * list Effect :=
  if negb (Js.truthy (Js.trim (newRoomName st))) then (st, db, [])
  else
    match Auth.error auth, Auth.user auth with
    | None, Some user =>
        let existingUser :=
          data (Sql.select_user fault_profile (Auth.id user) db) in
        let '(db0, log0) :=
          match existingUser with
          | Some _ => (db, [])
          | None =>
              let '(db', rp) :=
                Sql.insert_user fault_new_profile (profile_of user) db in
              (db',
               match Postgrest.error rp with
               | Some profileError =>
                   [console_error "Error creating user profile:"
                                  (Postgrest.message profileError)]
               | None => []
               end)
          end in
        let '(db1, r) :=
          Sql.insert_game_room fault_room room_id (newRoomName st)
                               (Auth.id user) db0 in
        match Postgrest.error r with
        | Some e =>
            (setLoading false st, db1,
             (log0 ++
              [console_error "Error creating room:" (Postgrest.message e);
               alert ("Failed to create room: " ++ Postgrest.message e)])%list)
        | None =>
            match data r with
            | Some (d0 :: _) =>
                let '(db2, rj) :=
                  Sql.insert_game_player fault_join player_id
                                         (GameRooms.id d0) (Auth.id user)
                                         db1 in
                (setLoading false
                   (setNewRoomName ""
                      (setActiveRoom (Some (GameRooms.id d0)) st)),
                 db2,
                 (log0 ++
                  match Postgrest.error rj with
                  | Some joinError =>
                      [console_error "Error joining room:"
                                     (Postgrest.message joinError);
                       alert ("Created room but failed to join: "
                              ++ Postgrest.message joinError)]
                  | None => []
                  end)%list)
            | _ => (setLoading false st, db1, log0)
            end
        end
    | userError, _ =>
        (setLoading false st, db,
         [console_error "User not authenticated:"
                        match userError with
                        | Some e => Auth.message e
                        | None => "null"
                        end;
          alert "Please sign in again."])
    end.

Definition joinRoom (auth : Auth.UserResponse)
           (fault : option PostgrestError) (player_id : UUID)
           (roomId : UUID) (db : Store) (st : State)
  : State * Store * list Effect :=
  match Auth.error auth, Auth.user auth with
  | None, Some user =>
      let '(db1, r) :=
        Sql.insert_game_player fault player_id roomId (Auth.id user) db in
      match Postgrest.error r with
      | Some e =>
          if code e =? "23505"
          then (setActiveRoom (Some roomId) st, db1,
                [console_error "Error joining room:" (Postgrest.message e)])
          else (st, db1,
                [console_error "Error joining room:" (Postgrest.message e);
                 alert ("Failed to join room: " ++ Postgrest.message e)])
      | None => (setActiveRoom (Some roomId) st, db1, [])
      end
  | _, _ => (st, db, [alert "Please sign in again."])
  end.

End PriorGameLobby.

(** ** A session in a room

    One mounted [GameRoom] with the store it talks to and the timers it
    has pending.  The component's handlers run one at a time; between two
    of them the store may change under the hands of other clients.  The
    props [roomId] and [user] are fixed here: this is a component that
    stays on one room.  [Visit], further down, lets the lobby show the
    mounted component another room. *)

Module Session.

(** The host of a room, as the store has it. *)
Definition host_of (db : Store) (room : UUID) : option UUID :=
  option_map GameRooms.host_id
             (find (fun r => GameRooms.id r =? room) (game_rooms db)).

(** The current card of a room: [None] when there is no such room,
    [Some None] when the room awaits its round. *)
Definition current_card_of (db : Store) (room : UUID) : option (option Z) :=
  option_map GameRooms.current_card_id
             (find (fun r => GameRooms.id r =? room) (game_rooms db)).

(** The stored score of an account in a room. *)
Definition score_of (db : Store) (room user : UUID) : option Z :=
  option_map GamePlayers.score
             (find (Sql.is_member room user) (game_players db)).

(** The number of membership rows of an account in a room. *)
Definition memberships (db : Store) (room user : UUID) : nat :=
  List.length (filter (Sql.is_member room user) (game_players db)).

(** The constraint [UNIQUE(room_id, user_id)]. *)
Definition unique_members (db : Store) : Prop :=
  forall room user, memberships db room user <= 1.

(** No statement of the application changes the host of a room or
    deletes a room: what other clients do keeps the hosts. *)
Definition same_hosts (db db' : Store) : Prop :=
  forall room h, host_of db room = Some h -> host_of db' room = Some h.

(** The timers a handler has set. *)
Definition scheduled (effects : list Effect) : list Callback :=
  flat_map (fun e => match e with
                     | setTimeout cb _ => [cb]
                     | _ => []
                     end) effects.

Record Config :=
  { store : Store; state : GameRoom.State; timers : list Callback }.

Section Run.

Variable roomId : UUID.
Variable user : Auth.User.

(** The component after a handler has returned [r]. *)
Definition after (c : Config) (r : GameRoom.State * Store * list Effect)
  : Config :=
  {| store := snd (fst r); state := fst (fst r);
     timers := (timers c ++ scheduled (snd r))%list |}.

Inductive step : Config -> Config -> Prop :=
| step_fetchPlayers c fault :
    step c {| store := store c;
              state := GameRoom.fetchPlayers roomId fault (store c) (state c);
              timers := timers c |}
| step_fetchCurrentCard c fault_room fault_card :
    step c {| store := store c;
              state := GameRoom.fetchCurrentCard roomId fault_room fault_card
                         (store c) (state c);
              timers := timers c |}
| step_checkIfHost c fault :
    step c {| store := store c;
              state := GameRoom.checkIfHost roomId user fault (store c)
                         (state c);
              timers := timers c |}
| step_onChange c text :
    step c {| store := store c;
              state := GameRoom.setUserAnswer text (state c);
              timers := timers c |}
| step_startNewRound c pick fault_cards fault_update :
    step c (after c (GameRoom.startNewRound roomId pick fault_cards
                       fault_update (store c) (state c)))
| step_submitAnswer c fault_update fault_insert match_id :
    step c (after c (GameRoom.submitAnswer roomId user fault_update
                       fault_insert match_id (store c) (state c)))
| step_timer c before cb later pick fault_cards fault_update :
    timers c = (before ++ cb :: later)%list ->
    step c (after {| store := store c; state := state c;
                     timers := (before ++ later)%list |}
                  (GameRoom.run_callback roomId cb pick fault_cards
                     fault_update (store c) (state c)))
| step_others c db' :
    same_hosts (store c) db' ->
    step c {| store := db'; state := state c; timers := timers c |}.

(** The configurations a session goes through from the mount on. *)
Inductive reachable : Config -> Prop :=
| reachable_mount db :
    reachable {| store := db; state := GameRoom.initial; timers := [] |}
| reachable_step c c' : reachable c -> step c c' -> reachable c'.


End Run.

(** A store never lowers a score from [db] to [db']: a membership that
    is in both has at least the score it had, and one that is new starts
    at 0. *)
Definition scores_never_lowered (db db' : Store) : Prop :=
  forall room user s',
    score_of db' room user = Some s' ->
    match score_of db room user with
    | Some s => (s <= s')%Z
    | None => s' = 0%Z
    end.

End Session.

(** The statement that a correct answer credits the submitter: the
    membership rows of the submitter in the room carry the cached score
    plus one, and the history has exactly one more record, for this room
    and card, won by the submitter. *)
Definition credits_submitter (roomId : UUID) (user : Auth.User)
           (card : Flashcards.Row) (cached : Z) (db db' : Store) : Prop :=
  game_players db' =
    map (fun p => if Sql.is_member roomId (Auth.id user) p
                  then Sql.set_score (cached + 1) p else p)
        (game_players db)
  /\ exists match_id,
      match_history db' =
        (match_history db ++
           [{| MatchHistory.id := match_id; MatchHistory.room_id := roomId;
               MatchHistory.card_id := Flashcards.id card;
               MatchHistory.winner_id := Some (Auth.id user) |}])%list.

(** A handler reports an error, on the console or before the user. *)
Definition reports_error (effects : list Effect) : bool :=
  existsb (fun e => match e with
                    | console_error _ _ | alert _
                    | toast _ _ destructive => true
                    | _ => false
                    end) effects.

(** ** Sample data

    The first flashcard of the migrations, two accounts and a room. *)

Module Sample.

Definition paris : Flashcards.Row :=
  {| Flashcards.id := 1;
     Flashcards.question := "What is the capital of France?";
     Flashcards.answer := "Paris"; Flashcards.category := "Geography" |}.

Definition four : Flashcards.Row :=
  {| Flashcards.id := 2; Flashcards.question := "What is 2 + 2?";
     Flashcards.answer := "4"; Flashcards.category := "Math" |}.

Definition alice : Auth.User :=
  {| Auth.id := "alice"; Auth.email := Some "alice@example.org";
     Auth.username := Some "alice" |}.

Definition bob : Auth.User :=
  {| Auth.id := "bob"; Auth.email := Some "bob@example.org";
     Auth.username := Some "bob" |}.

Definition signed_in (u : Auth.User) : Auth.UserResponse :=
  {| Auth.user := Some u; Auth.error := None |}.

(** The room "Quiz1" of alice. *)
Definition quiz1 (card : option Z) : GameRooms.Row :=
  {| GameRooms.id := "quiz1"; GameRooms.name := "Quiz1";
     GameRooms.host_id := "alice"; GameRooms.is_active := true;
     GameRooms.current_card_id := card |}.

Definition member (id user : UUID) (score : Z) : GamePlayers.Row :=
  {| GamePlayers.id := id; GamePlayers.room_id := "quiz1";
     GamePlayers.user_id := user; GamePlayers.score := score |}.

(** A store with the room [quiz1] and the given memberships. *)
Definition store_with (card : option Z) (members : list GamePlayers.Row)
  : Store :=
  {| users := []; flashcards := [paris; four]; game_rooms := [quiz1 card];
     game_players := members; match_history := [] |}.

(** What the component of bob holds after it has fetched the card
    [paris], before the players have arrived, with "paris" typed in. *)
Definition bob_answers (answer : string) : GameRoom.State :=
  GameRoom.setUserAnswer answer
    (GameRoom.setCurrentCard (Some paris) GameRoom.initial).

Definition unreachable_store : PostgrestError :=
  {| code := ""; message := "TypeError: Failed to fetch" |}.

(** The lobby with [name] typed into the room name field. *)
Definition lobby_with_name (name : string) : Lobby.State :=
  Lobby.setNewRoomName name Lobby.initial.

(** The room [quiz1] on the card [paris], with bob a member at [score]. *)
Definition bob_in_quiz1 (score : Z) : Store :=
  store_with (Some 1%Z)
             [member "p-alice" "alice" 0; member "p-bob" "bob" score].

End Sample.

(** ** The leaderboard *)

Module Leaderboard.

(** A [game_players] row as [fetchPlayers] receives it, with the
    embedded [users (username)]. *)
Definition player_of (db : Store) (p : GamePlayers.Row) : GameRoom.Player.t :=
  {| GameRoom.Player.id := GamePlayers.id p;
     GameRoom.Player.room_id := GamePlayers.room_id p;
     GameRoom.Player.user_id := GamePlayers.user_id p;
     GameRoom.Player.score := GamePlayers.score p;
     GameRoom.Player.users :=
       option_map Users.username
         (find (fun u => Users.id u =? GamePlayers.user_id p) (users db)) |}.

(** The membership rows of a room. *)
Definition members_of (db : Store) (room : UUID) : list GamePlayers.Row :=
  filter (fun p => GamePlayers.room_id p =? room) (game_players db).

(** [p] comes before [q] on the leaderboard. *)
Definition not_below (p q : GameRoom.Player.t) : Prop :=
  (GameRoom.Player.score q <= GameRoom.Player.score p)%Z.

End Leaderboard.

(** ** The trigger on new accounts

    [handle_new_user] of the migrations, in its last form:
    [INSERT INTO public.users (id, email, username)
     VALUES (new.id, new.email,
             COALESCE(new.raw_user_meta_data->>'username',
                      split_part(new.email, '@', 1)))
     ON CONFLICT (id) DO NOTHING].  The row [new] of [auth.users] has the
    fields of [Auth.User]. *)

Module Trigger.

Definition not_null_violation : PostgrestError :=
  {| code := "23502";
     message := "null value in column violates not-null constraint" |}.

Definition profile_row (new : Auth.User) (email : string) : Users.Row :=
  {| Users.id := Auth.id new;
     Users.email := email;
     Users.username :=
       match Auth.username new with
       | Some username => username
       | None => Js.split_at_0 email
       end |}.

Definition handle_new_user (new : Auth.User) (db : Store)
  : Store * Response unit :=
  match Auth.email new with
  | None => (db, failed not_null_violation)
  | Some email =>
      if existsb (fun u => Users.id u =? Auth.id new) (users db)
      then (db, ok tt)
      else if existsb (fun u => (Users.email u =? email)
                                || (Users.username u
                                    =? Users.username (profile_row new email)))
                      (users db)
      then (db, failed unique_violation)
      else (Sql.with_users db (users db ++ [profile_row new email]), ok tt)
  end.

(** The primary key of [users]. *)
Definition unique_profiles (db : Store) : Prop :=
  forall id,
    List.length (filter (fun u => Users.id u =? id) (users db)) <= 1.

End Trigger.

(** ** More sample data *)

Module Scenario.

(** An account without a user name in its metadata. *)
Definition carol : Auth.User :=
  {| Auth.id := "carol"; Auth.email := Some "carol@example.org";
     Auth.username := None |}.

(** The component of bob after it has fetched the players and the card
    of [quiz1] and "paris" has been typed in. *)
Definition bob_ready (db : Store) : GameRoom.State :=
  GameRoom.setUserAnswer "paris"
    (GameRoom.fetchCurrentCard "quiz1" None None db
       (GameRoom.fetchPlayers "quiz1" None db GameRoom.initial)).


(** A card whose stored answer is white space only. *)
Definition blank_card : Flashcards.Row :=
  {| Flashcards.id := 3; Flashcards.question := "?";
     Flashcards.answer := "  "; Flashcards.category := "general" |}.

End Scenario.

(** ** What a lobby handler may do to the store *)

Module Frames.

(** From [db] to [db'] at most one room and at most one membership were
    appended, the membership with score 0; nothing that was stored has
    changed. *)
Definition only_appends (db db' : Store) : Prop :=
  exists new_rooms new_players,
    game_rooms db' = (game_rooms db ++ new_rooms)%list
    /\ game_players db' = (game_players db ++ new_players)%list
    /\ List.length new_rooms <= 1
    /\ List.length new_players <= 1
    /\ (forall r, In r new_rooms ->
                  GameRooms.is_active r = true
                  /\ GameRooms.current_card_id r = None)
    /\ (forall p, In p new_players -> GamePlayers.score p = 0%Z)
    /\ flashcards db' = flashcards db
    /\ match_history db' = match_history db.

End Frames.

(** ** What a handler may do to the scores *)

Module ScoreFrame.

(** No stored score differs from [db] to [db']: a membership that is
    in [db'] has the score it had in [db], and one that is new has 0. *)
Definition scores_kept (db db' : Store) : Prop :=
  forall room user s',
    Session.score_of db' room user = Some s' ->
    match Session.score_of db room user with
    | Some s => s' = s
    | None => s' = 0%Z
    end.

(** From [db] to [db'] no membership has appeared, and a stored score
    is what it was unless it is the score of [user] in [room], which may
    have become [written]. *)
Definition only_written (room user : UUID) (written : Z) (db db' : Store)
  : Prop :=
  forall room' user' s',
    Session.score_of db' room' user' = Some s' ->
    exists s,
      Session.score_of db room' user' = Some s
      /\ (s' = s \/ (room' = room /\ user' = user /\ s' = written)).

End ScoreFrame.

(** ** A component that is shown another room

    [GameLobby] renders [<GameRoom roomId={activeRoom} ... />] without a
    key: when a second [joinRoom] or [createRoom] sets [activeRoom] while
    the component is mounted, React keeps the instance and only the prop
    changes.  The state of the component survives, [isHost] included,
    until the refreshers started by the effect on [roomId] have answered;
    a pending timer keeps the closure, and with it the room, of the
    render that set it. *)

Module Visit.

Record Mounted :=
  { roomId : UUID;
    store : Store;
    state : GameRoom.State;
    pending : list (UUID * Callback) }.

Section Run.

Variable user : Auth.User.

Inductive step : Mounted -> Mounted -> Prop :=
| step_handler m c' :
    Session.step (roomId m) user
      {| Session.store := store m; Session.state := state m;
         Session.timers := [] |} c' ->
    step m {| roomId := roomId m; store := Session.store c';
              state := Session.state c';
              pending := (pending m
                          ++ map (pair (roomId m)) (Session.timers c'))%list |}
| step_timer m before room cb later pick fault_cards fault_update :
    pending m = (before ++ (room, cb) :: later)%list ->
    step m {| roomId := roomId m;
              store := snd (fst (GameRoom.run_callback room cb pick
                                   fault_cards fault_update
                                   (store m) (state m)));
              state := fst (fst (GameRoom.run_callback room cb pick
                                   fault_cards fault_update
                                   (store m) (state m)));
              pending := (before ++ later)%list |}
| step_rerender m room' :
    step m {| roomId := room'; store := store m; state := state m;
              pending := pending m |}.

Inductive reachable : Mounted -> Prop :=
| reachable_mount room db :
    reachable {| roomId := room; store := db; state := GameRoom.initial;
                 pending := [] |}
| reachable_step m m' : reachable m -> step m m' -> reachable m'.

End Run.

End Visit.

(** ** Two rooms *)

Module TwoRooms.

(** The room "Quiz2" of bob. *)
Definition quiz2 (card : option Z) : GameRooms.Row :=
  {| GameRooms.id := "quiz2"; GameRooms.name := "Quiz2";
     GameRooms.host_id := "bob"; GameRooms.is_active := true;
     GameRooms.current_card_id := card |}.

(** A store with [quiz1] of alice and [quiz2] of bob, both awaiting
    their round. *)
Definition store : Store :=
  {| users := []; flashcards := [Sample.paris; Sample.four];
     game_rooms := [Sample.quiz1 None; quiz2 None];
     game_players := []; match_history := [] |}.


End TwoRooms.

(** ** Lemmas on JavaScript strings *)

Module JsFacts.
Import Js.

Lemma isWhiteSpace_toLowerChar (c : ascii) :
  isWhiteSpace (toLowerChar c) = isWhiteSpace c.
Proof.
  destruct c as [[] [] [] [] [] [] [] []]; reflexivity.
Qed.

Lemma trimStart_toLowerCase (s : string) :
  trimStart (toLowerCase s) = toLowerCase (trimStart s).
Proof.
  induction s as [|c s IH]; simpl; [reflexivity|].
  rewrite isWhiteSpace_toLowerChar.
  destruct (isWhiteSpace c); [exact IH | reflexivity].
Qed.

Lemma trimEnd_toLowerCase (s : string) :
  trimEnd (toLowerCase s) = toLowerCase (trimEnd s).
Proof.
  induction s as [|c s IH]; simpl; [reflexivity|].
  rewrite IH, isWhiteSpace_toLowerChar.
  destruct (trimEnd s); simpl; [|reflexivity].
  destruct (isWhiteSpace c); reflexivity.
Qed.

(** Lower-casing and trimming commute: the order in which the spec and
    the code name the two steps does not matter. *)
Lemma trim_toLowerCase (s : string) :
  trim (toLowerCase s) = toLowerCase (trim s).
Proof.
  unfold trim. now rewrite trimStart_toLowerCase, trimEnd_toLowerCase.
Qed.

Lemma trimStart_split (s : string) :
  exists l, s = l ++ trimStart s /\ allWhiteSpace l = true
            /\ startsWithWhiteSpace (trimStart s) = false.
Proof.
  induction s as [|c s (l & E & W & N)]; simpl.
  - exists ""; auto.
  - destruct (isWhiteSpace c) eqn:Hc.
    + exists (String c l); simpl. rewrite Hc, W, <- E. auto.
    + exists ""; simpl. auto.
Qed.

Lemma trimEnd_split (s : string) :
  exists r, s = trimEnd s ++ r /\ allWhiteSpace r = true
            /\ endsWithWhiteSpace (trimEnd s) = false.
Proof.
  induction s as [|c s (r & E & W & N)]; simpl.
  - exists ""; auto.
  - destruct (trimEnd s) as [|d t] eqn:Ht.
    + destruct (isWhiteSpace c) eqn:Hc.
      * exists (String c r); simpl in *. subst r. rewrite Hc, W. auto.
      * exists r; simpl in *. subst r. auto.
    + exists r; simpl in *. rewrite <- E. auto.
Qed.

Lemma startsWithWhiteSpace_trimEnd (s : string) :
  startsWithWhiteSpace s = false ->
  startsWithWhiteSpace (trimEnd s) = false.
Proof.
  destruct s as [|c s]; simpl; [reflexivity|]; intros Hc.
  destruct (trimEnd s); simpl; [|exact Hc].
  rewrite Hc. exact Hc.
Qed.

(** What [trim] removes is white space around the string, and nothing
    else: the trimmed string sits inside the original between two runs
    of white space and neither starts nor ends with white space. *)
Lemma trim_split (s : string) :
  exists l r, s = l ++ trim s ++ r
              /\ allWhiteSpace l = true /\ allWhiteSpace r = true
              /\ startsWithWhiteSpace (trim s) = false
              /\ endsWithWhiteSpace (trim s) = false.
Proof.
  destruct (trimStart_split s) as (l & El & Wl & Nl).
  destruct (trimEnd_split (trimStart s)) as (r & Er & Wr & Nr).
  exists l, r. unfold trim. rewrite <- Er, <- El.
  repeat split; auto using startsWithWhiteSpace_trimEnd.
Qed.

Lemma trimStart_white (l s : string) :
  allWhiteSpace l = true -> trimStart (l ++ s) = trimStart s.
Proof.
  induction l as [|c l IH]; simpl; [reflexivity|].
  intros H. apply andb_true_iff in H. destruct H as [Hc Hl].
  rewrite Hc. auto.
Qed.

Lemma trimStart_all_white (r : string) :
  allWhiteSpace r = true -> trimStart r = "".
Proof.
  induction r as [|c r IH]; simpl; [reflexivity|].
  intros H. apply andb_true_iff in H. destruct H as [Hc Hr].
  rewrite Hc. auto.
Qed.

Lemma trimStart_clean (s : string) :
  startsWithWhiteSpace s = false -> trimStart s = s.
Proof. destruct s as [|c s]; simpl; [reflexivity|]. now intros ->. Qed.

Lemma trimEnd_all_white (r : string) :
  allWhiteSpace r = true -> trimEnd r = "".
Proof.
  induction r as [|c r IH]; simpl; [reflexivity|].
  intros H. apply andb_true_iff in H. destruct H as [Hc Hr].
  now rewrite (IH Hr), Hc.
Qed.

Lemma trimEnd_white (s r : string) :
  allWhiteSpace r = true -> trimEnd (s ++ r) = trimEnd s.
Proof.
  intros Hr. induction s as [|c s IH]; simpl.
  - now apply trimEnd_all_white.
  - now rewrite IH.
Qed.

Lemma trimEnd_clean (s : string) :
  endsWithWhiteSpace s = false -> trimEnd s = s.
Proof.
  induction s as [|c s IH]; [reflexivity|].
  destruct s as [|d t].
  - simpl. now intros ->.
  - intros H. change (endsWithWhiteSpace (String d t) = false) in H.
    change (trimEnd (String c (String d t)))
      with (match trimEnd (String d t) with
            | EmptyString => if isWhiteSpace c then EmptyString
                             else String c EmptyString
            | t' => String c t'
            end).
    now rewrite (IH H).
Qed.

(** The core of a string is what [trim] returns. *)
Lemma core_of_trim (s core : string) : core_of s core <-> trim s = core.
Proof.
  split.
  - intros (l & r & -> & Hl & Hr & Hs & He). unfold trim.
    rewrite trimStart_white by exact Hl.
    destruct core as [|c core].
    + simpl. now rewrite (trimStart_all_white r Hr).
    + rewrite trimStart_clean by exact Hs.
      rewrite trimEnd_white by exact Hr. now apply trimEnd_clean.
  - intros <-. exact (trim_split s).
Qed.

Lemma length_toLowerCase (s : string) :
  String.length (toLowerCase s) = String.length s.
Proof. induction s; simpl; congruence. Qed.

End JsFacts.

(** ** The answer check *)

(** C2: the submission is judged correct exactly when the two strings are
    equal after lower-casing and trimming the surrounding white space, in
    either order of the two steps; that is, exactly when what is left of
    the two strings without the white space around them is the same up
    to the case of the letters.  " Paris " and "paris" match the stored
    answer "Paris"; a prefix, an answer with inner white space changed or
    with a letter more does not match. *)
Theorem isCorrect_iff_normalized_equal :
  (forall userAnswer answer : string,
      isCorrect userAnswer answer = true <->
      Js.trim (Js.toLowerCase userAnswer) = Js.trim (Js.toLowerCase answer))
  /\ (forall userAnswer answer : string,
      isCorrect userAnswer answer = true <->
      Js.toLowerCase (Js.trim userAnswer) = Js.toLowerCase (Js.trim answer))
  /\ (forall userAnswer answer : string,
      isCorrect userAnswer answer = true <->
      same_up_to_case_and_surrounding_space userAnswer answer)
  /\ (forall userAnswer answer : string,
      isCorrect userAnswer answer = true ->
      String.length (Js.trim userAnswer) = String.length (Js.trim answer))
  /\ isCorrect " Paris " "Paris" = true
  /\ isCorrect "paris" "Paris" = true
  /\ isCorrect "Par" "Paris" = false
  /\ isCorrect "Pariss" "Paris" = false
  /\ isCorrect "Pa ris" "Paris" = false
  /\ isCorrect "leonardo  da vinci" "Leonardo da Vinci" = false.
Proof.
  assert (H1 : forall u a, isCorrect u a = true <->
            Js.trim (Js.toLowerCase u) = Js.trim (Js.toLowerCase a))
    by (intros; apply String.eqb_eq).
  assert (H2 : forall u a, isCorrect u a = true <->
            Js.toLowerCase (Js.trim u) = Js.toLowerCase (Js.trim a))
    by (intros u a; rewrite H1, !JsFacts.trim_toLowerCase; reflexivity).
  split; [exact H1|]. split; [exact H2|].
  split.
  { intros u a. rewrite H2. split.
    - intros H. exists (Js.trim u), (Js.trim a).
      repeat split; try exact H; now apply JsFacts.core_of_trim.
    - intros (cu & ca & Hu & Ha & H).
      apply JsFacts.core_of_trim in Hu, Ha. now subst. }
  split.
  - intros u a H. apply H2 in H.
    apply (f_equal String.length) in H.
    now rewrite !JsFacts.length_toLowerCase in H.
  - repeat split; reflexivity.
Qed.

(** ** Lemmas on the statements of the store *)

Module SqlFacts.
Import Sql.

Lemma truthy_trim (s : string) :
  Js.truthy (Js.trim s) = true <-> Js.trim s <> "".
Proof.
  unfold Js.truthy. destruct (String.eqb_spec (Js.trim s) ""); simpl;
    split; intros; congruence.
Qed.

(** A statement that answers with an error has changed nothing. *)
Lemma update_score_error fault room user newScore db e :
  Postgrest.error (snd (update_score fault room user newScore db)) = Some e ->
  fst (update_score fault room user newScore db) = db.
Proof.
  unfold update_score. destruct fault; simpl; [reflexivity|].
  destruct (existsb _ _ && _); simpl; [reflexivity | discriminate].
Qed.

Lemma update_score_ok fault room user newScore db :
  Postgrest.error (snd (update_score fault room user newScore db)) = None ->
  fst (update_score fault room user newScore db) =
  with_game_players db
    (map (fun p => if is_member room user p then set_score newScore p else p)
         (game_players db)).
Proof.
  unfold update_score. destruct fault; simpl; [discriminate|].
  destruct (existsb _ _ && _); simpl; [discriminate | reflexivity].
Qed.

Lemma insert_match_history_ok fault new_id room card winner db :
  Postgrest.error
    (snd (insert_match_history fault new_id room card winner db)) = None ->
  fst (insert_match_history fault new_id room card winner db) =
  with_match_history db
    (match_history db ++
       [{| MatchHistory.id := new_id; MatchHistory.room_id := room;
           MatchHistory.card_id := card;
           MatchHistory.winner_id := Some winner |}])%list.
Proof.
  unfold insert_match_history. destruct fault; simpl; [discriminate|].
  destruct (negb _ || negb _); simpl; [discriminate | reflexivity].
Qed.

Lemma insert_match_history_players fault new_id room card winner db :
  game_players (fst (insert_match_history fault new_id room card winner db))
  = game_players db.
Proof.
  unfold insert_match_history. destruct fault; simpl; [reflexivity|].
  destruct (negb _ || negb _); reflexivity.
Qed.



Lemma update_score_history fault room user newScore db :
  match_history (fst (update_score fault room user newScore db))
  = match_history db.
Proof.
  unfold update_score. destruct fault; simpl; [reflexivity|].
  destruct (existsb _ _ && _); reflexivity.
Qed.

End SqlFacts.

(** ** submitAnswer *)

Section SubmitAnswer.

Variable roomId : UUID.
Variable user : Auth.User.

(** C7: an incorrect submission shows the failure feedback, which ends
    with the stored answer of the card, and changes nothing in the store:
    no score is written, no match record is inserted and the room keeps
    its current card; no timer is set and the component keeps its card. *)
Theorem submitAnswer_incorrect_reveals_answer_and_writes_nothing
        fault_update fault_insert match_id db st card :
  GameRoom.currentCard st = Some card ->
  Js.trim (GameRoom.userAnswer st) <> "" ->
  isCorrect (GameRoom.userAnswer st) (Flashcards.answer card) = false ->
  exists st',
    GameRoom.submitAnswer roomId user fault_update fault_insert match_id
                          db st
    = (st', db, [])
    /\ GameRoom.feedback st' =
         Some {| GameRoom.message :=
                   "Wrong! The correct answer was: " ++ Flashcards.answer card;
                 GameRoom.type := GameRoom.error |}
    /\ GameRoom.currentCard st' = Some card
    /\ GameRoom.players st' = GameRoom.players st
    /\ GameRoom.isHost st' = GameRoom.isHost st.
Proof.
  intros Hcard Htrim Hwrong. apply SqlFacts.truthy_trim in Htrim.
  unfold GameRoom.submitAnswer.
  rewrite Hcard, Htrim, Hwrong. simpl.
  eexists. split; [reflexivity|]. simpl. auto.
Qed.

(** C10: when the answer is correct and the score update answers with an
    error, the handler stops with the error feedback and the store as it
    was: no match record, no success feedback, no timer for the next
    round.  And whenever a call inserts a match record, sets a timer or
    shows the success feedback, the answer was correct and the score
    update had answered without error. *)
Theorem submitAnswer_update_error_stops :
  (forall fault_update fault_insert match_id db st card e,
      GameRoom.currentCard st = Some card ->
      Js.trim (GameRoom.userAnswer st) <> "" ->
      isCorrect (GameRoom.userAnswer st) (Flashcards.answer card) = true ->
      Postgrest.error
        (snd (Sql.update_score fault_update roomId (Auth.id user)
                (GameRoom.newScore user st) db)) = Some e ->
      exists st',
        GameRoom.submitAnswer roomId user fault_update fault_insert match_id
                              db st
        = (st', db,
           [console_error "Error updating score:" (Postgrest.message e)])
        /\ GameRoom.feedback st' =
             Some {| GameRoom.message :=
                       "Error updating score. Please try again.";
                     GameRoom.type := GameRoom.error |}
        /\ Session.scheduled
             (snd (GameRoom.submitAnswer roomId user fault_update
                     fault_insert match_id db st)) = [])
  /\ (forall fault_update fault_insert match_id db st,
         let r := GameRoom.submitAnswer roomId user fault_update
                                        fault_insert match_id db st in
         match_history (snd (fst r)) <> match_history db
         \/ Session.scheduled (snd r) <> []
         \/ option_map GameRoom.type (GameRoom.feedback (fst (fst r)))
            = Some GameRoom.success
            /\ option_map GameRoom.type (GameRoom.feedback st)
               <> Some GameRoom.success ->
         exists card,
           GameRoom.currentCard st = Some card
           /\ isCorrect (GameRoom.userAnswer st) (Flashcards.answer card) = true
           /\ Postgrest.error
                (snd (Sql.update_score fault_update roomId (Auth.id user)
                        (GameRoom.newScore user st) db)) = None).
Proof.
  split.
  - intros fu fi mid db st card e Hcard Htrim Hok Herr.
    apply SqlFacts.truthy_trim in Htrim.
    pose proof (SqlFacts.update_score_error _ _ _ _ _ _ Herr) as Hdb.
    unfold GameRoom.submitAnswer.
    rewrite Hcard, Htrim, Hok. simpl.
    destruct (Sql.update_score fu roomId (Auth.id user)
                (GameRoom.newScore user st) db) as [db1 r].
    simpl in Herr, Hdb. rewrite Herr. subst db1.
    eexists. split; [reflexivity|]. simpl. auto.
  - intros fu fi mid db st r H. subst r.
    unfold GameRoom.submitAnswer in *.
    destruct (GameRoom.currentCard st) as [card|];
      [|simpl in H; intuition congruence].
    destruct (negb (Js.truthy (Js.trim (GameRoom.userAnswer st))));
      [simpl in H; intuition congruence|].
    destruct (isCorrect (GameRoom.userAnswer st) (Flashcards.answer card))
      eqn:Hok; [|simpl in H; intuition congruence].
    exists card. split; [reflexivity|]. split; [exact Hok|].
    pose proof (SqlFacts.update_score_history fu roomId (Auth.id user)
                  (GameRoom.newScore user st) db) as Hh.
    destruct (Sql.update_score fu roomId (Auth.id user)
                (GameRoom.newScore user st) db) as [db1 r].
    simpl in *. destruct (Postgrest.error r); [|reflexivity].
    simpl in H. rewrite Hh in H. intuition congruence.
Qed.

(** The score the handler writes is the cached one plus one; the cache
    is the first player of [players] with the account's id, and 0 when
    there is none. *)
Lemma cachedScore_spec st :
  match find (fun p => GameRoom.Player.user_id p =? Auth.id user)
             (GameRoom.players st) with
  | Some p => GameRoom.cachedScore user st = GameRoom.Player.score p
  | None => GameRoom.cachedScore user st = 0%Z
  end.
Proof.
  unfold GameRoom.cachedScore.
  destruct (find _ (GameRoom.players st)) as [p|]; [|reflexivity].
  unfold GameRoom.or_zero. destruct (Z.eqb_spec (GameRoom.Player.score p) 0);
    congruence.
Qed.

(** C1, amended: a correct submission whose score update and whose match
    record insert the store accepts writes the cached score plus one (0
    plus one when the cache has no row of the submitter) to the
    membership rows of (room, submitter) and appends exactly one match
    record, for this room and card, won by the submitter; the other
    tables are untouched. *)
Theorem submitAnswer_correct_credits_submitter
        fault_update fault_insert match_id db st card :
  GameRoom.currentCard st = Some card ->
  Js.trim (GameRoom.userAnswer st) <> "" ->
  isCorrect (GameRoom.userAnswer st) (Flashcards.answer card) = true ->
  Postgrest.error
    (snd (Sql.update_score fault_update roomId (Auth.id user)
            (GameRoom.newScore user st) db)) = None ->
  Postgrest.error
    (snd (Sql.insert_match_history fault_insert match_id roomId
            (Flashcards.id card) (Auth.id user)
            (fst (Sql.update_score fault_update roomId (Auth.id user)
                    (GameRoom.newScore user st) db)))) = None ->
  let db' :=
    snd (fst (GameRoom.submitAnswer roomId user fault_update fault_insert
                match_id db st)) in
  credits_submitter roomId user card (GameRoom.cachedScore user st) db db'
  /\ match find (fun p => GameRoom.Player.user_id p =? Auth.id user)
                (GameRoom.players st) with
     | Some p => GameRoom.cachedScore user st = GameRoom.Player.score p
     | None => GameRoom.cachedScore user st = 0%Z
     end
  /\ users db' = users db /\ flashcards db' = flashcards db
  /\ game_rooms db' = game_rooms db.
Proof.
  intros Hcard Htrim Hok Hupd Hins db'. subst db'.
  apply SqlFacts.truthy_trim in Htrim.
  pose proof (SqlFacts.update_score_ok _ _ _ _ _ Hupd) as Edb1.
  pose proof (SqlFacts.insert_match_history_ok _ _ _ _ _ _ Hins) as Edb2.
  unfold GameRoom.submitAnswer. rewrite Hcard, Htrim, Hok. simpl.
  destruct (Sql.update_score fault_update roomId (Auth.id user)
              (GameRoom.newScore user st) db) as [db1 r].
  simpl in *. rewrite Hupd. simpl. rewrite Edb2. subst db1. simpl.
  split; [|split; [apply cachedScore_spec | auto]].
  split; [reflexivity|]. exists match_id. reflexivity.
Qed.

End SubmitAnswer.

(** ** The host of a room *)

Module SessionFacts.
Import Session.

Lemma find_map_same_key {A : Type} (key : A -> bool) (f : A -> A)
      (l : list A) :
  (forall a, key (f a) = key a) ->
  find key (map f l) = option_map f (find key l).
Proof.
  intros Hkey. induction l as [|a l IH]; simpl; [reflexivity|].
  rewrite Hkey. destruct (key a); [reflexivity | exact IH].
Qed.

Lemma find_app_found {A : Type} (key : A -> bool) (l extra : list A) a :
  find key l = Some a -> find key (l ++ extra) = Some a.
Proof.
  induction l as [|b l IH]; simpl; [discriminate|].
  destruct (key b); auto.
Qed.

Lemma single_filter_find {A : Type} (key : A -> bool) (l : list A) a :
  data (single (filter key l)) = Some a -> find key l = Some a.
Proof.
  induction l as [|b l IH]; simpl; [discriminate|].
  destruct (key b) eqn:Hb.
  - destruct (filter key l) as [|c [|d t]]; simpl; congruence.
  - exact IH.
Qed.

Lemma same_hosts_refl db : same_hosts db db.
Proof. intros room h H. exact H. Qed.

Lemma same_hosts_rooms db db' :
  game_rooms db' = game_rooms db -> same_hosts db db'.
Proof. intros E room h. unfold host_of. now rewrite E. Qed.


Lemma insert_game_room_same_hosts fault new_id name host db :
  same_hosts db (fst (Sql.insert_game_room fault new_id name host db)).
Proof.
  unfold Sql.insert_game_room. destruct fault; [apply same_hosts_refl|].
  intros r h. unfold host_of. simpl.
  destruct (find _ (game_rooms db)) as [row|] eqn:E; [|discriminate].
  now rewrite (find_app_found _ _ _ _ E).
Qed.

Lemma insert_game_player_rooms fault new_id room user db :
  game_rooms (fst (Sql.insert_game_player fault new_id room user db))
  = game_rooms db.
Proof.
  unfold Sql.insert_game_player. destruct fault; [reflexivity|].
  destruct (existsb _ _); [reflexivity|].
  destruct (negb _); reflexivity.
Qed.

Lemma insert_user_rooms fault row db :
  game_rooms (fst (Sql.insert_user fault row db)) = game_rooms db.
Proof.
  unfold Sql.insert_user. destruct fault; [reflexivity|].
  destruct (existsb _ _); reflexivity.
Qed.

Lemma same_hosts_trans db1 db2 db3 :
  same_hosts db1 db2 -> same_hosts db2 db3 -> same_hosts db1 db3.
Proof. intros H1 H2 room h H. auto. Qed.

Section Handlers.

Variable roomId : UUID.
Variable user : Auth.User.















(** The other handlers keep the hosts as well: whatever the clients of
    the store do through the application is a [step_others]. *)
Lemma leaveRoom_same_hosts fault db :
  same_hosts db (fst (GameRoom.leaveRoom roomId user fault db)).
Proof.
  apply same_hosts_rooms. unfold GameRoom.leaveRoom, Sql.delete_game_player.
  now destruct fault.
Qed.

Lemma GameLobby_joinRoom_same_hosts auth fault pid db st :
  same_hosts db (snd (fst (GameLobby.joinRoom auth fault pid roomId db st))).
Proof.
  apply same_hosts_rooms. unfold GameLobby.joinRoom.
  destruct (Auth.user auth) as [u|]; [|reflexivity].
  pose proof (insert_game_player_rooms fault pid roomId (Auth.id u) db) as E.
  destruct (Sql.insert_game_player _ _ _ _ _) as [db1 r]. simpl in E.
  destruct (Postgrest.error r) as [e|]; [|exact E].
  destruct (code e =? "23505"); exact E.
Qed.

Lemma PriorGameLobby_joinRoom_same_hosts auth fault pid db st :
  same_hosts db
    (snd (fst (PriorGameLobby.joinRoom auth fault pid roomId db st))).
Proof.
  apply same_hosts_rooms. unfold PriorGameLobby.joinRoom.
  destruct (Auth.error auth); [reflexivity|].
  destruct (Auth.user auth) as [u|]; [|reflexivity].
  pose proof (insert_game_player_rooms fault pid roomId (Auth.id u) db) as E.
  destruct (Sql.insert_game_player _ _ _ _ _) as [db1 r]. simpl in E.
  destruct (Postgrest.error r) as [e|]; [|exact E].
  destruct (code e =? "23505"); exact E.
Qed.

Lemma GameLobby_createRoom_same_hosts auth fr rid fj pid db st :
  same_hosts db (snd (fst (GameLobby.createRoom auth fr rid fj pid db st))).
Proof.
  unfold GameLobby.createRoom.
  destruct (negb _); [apply same_hosts_refl|].
  destruct (Auth.user auth) as [u|]; [|apply same_hosts_refl].
  pose proof (insert_game_room_same_hosts fr rid (Lobby.newRoomName st)
                (Auth.id u) db) as H.
  destruct (Sql.insert_game_room _ _ _ _ _) as [db1 r]. simpl in H.
  destruct (Postgrest.error (Lobby.single_row r)); [exact H|].
  destruct (data (Lobby.single_row r)) as [d|]; [|exact H].
  pose proof (insert_game_player_rooms fj pid (GameRooms.id d) (Auth.id u) db1)
    as E.
  destruct (Sql.insert_game_player _ _ _ _ _) as [db2 rj]. simpl in E.
  apply (same_hosts_trans _ db1); [exact H|].
  destruct (Postgrest.error rj); now apply same_hosts_rooms.
Qed.

Lemma PriorGameLobby_createRoom_same_hosts auth fp fn fr rid fj pid db st :
  same_hosts db
    (snd (fst (PriorGameLobby.createRoom auth fp fn fr rid fj pid db st))).
Proof.
  unfold PriorGameLobby.createRoom.
  destruct (negb _); [apply same_hosts_refl|].
  destruct (Auth.error auth); [apply same_hosts_refl|].
  destruct (Auth.user auth) as [u|]; [|apply same_hosts_refl].
  assert (E0 : game_rooms
                 (fst match data (Sql.select_user fp (Auth.id u) db) with
                      | Some _ => (db, @nil Effect)
                      | None =>
                          let '(db', rp) :=
                            Sql.insert_user fn (PriorGameLobby.profile_of u) db
                          in
                          (db',
                           match Postgrest.error rp with
                           | Some profileError =>
                               [console_error "Error creating user profile:"
                                  (Postgrest.message profileError)]
                           | None => []
                           end)
                      end) = game_rooms db).
  { destruct (data _); [reflexivity|].
    pose proof (insert_user_rooms fn (PriorGameLobby.profile_of u) db) as E.
    now destruct (Sql.insert_user _ _ _). }
  destruct (match data (Sql.select_user fp (Auth.id u) db) with
            | Some _ => _ | None => _ end) as [db0 log0].
  simpl in E0. apply (same_hosts_trans _ db0); [now apply same_hosts_rooms|].
  pose proof (insert_game_room_same_hosts fr rid (Lobby.newRoomName st)
                (Auth.id u) db0) as H.
  destruct (Sql.insert_game_room _ _ _ _ _) as [db1 r]. simpl in H.
  destruct (Postgrest.error r); [exact H|].
  destruct (data r) as [[|d0 rows]|]; try exact H.
  pose proof (insert_game_player_rooms fj pid (GameRooms.id d0) (Auth.id u)
                db1) as E.
  destruct (Sql.insert_game_player _ _ _ _ _) as [db2 rj]. simpl in E.
  apply (same_hosts_trans _ db1); [exact H | now apply same_hosts_rooms].
Qed.


End Handlers.

End SessionFacts.

(** ** Scores *)

Module ScoreFacts.
Import Session.

Lemma is_member_key room user room' user' p :
  Sql.is_member room user p = true ->
  Sql.is_member room' user' p = true ->
  room = room' /\ user = user'.
Proof.
  unfold Sql.is_member. rewrite !andb_true_iff, !String.eqb_eq.
  intuition congruence.
Qed.

Lemma find_app_one {A : Type} (key : A -> bool) (l : list A) (x : A) :
  find key (l ++ [x]) =
  match find key l with
  | Some a => Some a
  | None => if key x then Some x else None
  end.
Proof.
  induction l as [|a l IH]; simpl; [reflexivity|].
  destruct (key a); [reflexivity | exact IH].
Qed.

Lemma find_existsb_false {A : Type} (key : A -> bool) (l : list A) :
  existsb key l = false -> find key l = None.
Proof.
  induction l as [|a l IH]; simpl; [reflexivity|].
  destruct (key a); simpl; [discriminate | exact IH].
Qed.

Lemma find_filter_out {A : Type} (key : A -> bool) (l : list A) :
  find key (filter (fun a => negb (key a)) l) = None.
Proof.
  induction l as [|a l IH]; simpl; [reflexivity|].
  destruct (key a) eqn:E; simpl; [exact IH|]. now rewrite E.
Qed.

Lemma scores_never_lowered_refl db : scores_never_lowered db db.
Proof. intros room user s' E. rewrite E. reflexivity. Qed.

Lemma scores_kept_refl db : ScoreFrame.scores_kept db db.
Proof. intros room user s' E. rewrite E. reflexivity. Qed.

Lemma scores_kept_players db db' :
  game_players db' = game_players db -> ScoreFrame.scores_kept db db'.
Proof.
  intros E room user s'. unfold score_of. rewrite E. intros ->. reflexivity.
Qed.

Lemma scores_kept_from db db1 db2 :
  game_players db1 = game_players db ->
  ScoreFrame.scores_kept db1 db2 -> ScoreFrame.scores_kept db db2.
Proof.
  intros E H room user s' Hs. specialize (H room user s' Hs).
  unfold score_of in *. now rewrite <- E.
Qed.

(** Scores that are kept are not lowered. *)
Lemma scores_kept_never_lowered db db' :
  ScoreFrame.scores_kept db db' -> scores_never_lowered db db'.
Proof.
  intros H room user s' Hs. specialize (H room user s' Hs).
  destruct (score_of db room user); [subst; reflexivity | exact H].
Qed.

(** An update to [newScore] lowers nothing when the stored score of the
    account is at most [newScore]. *)
Lemma update_score_never_lowered fault room user newScore db :
  (forall s, score_of db room user = Some s -> (s <= newScore)%Z) ->
  scores_never_lowered db (fst (Sql.update_score fault room user newScore db)).
Proof.
  intros Hle. unfold Sql.update_score.
  destruct fault; [apply scores_never_lowered_refl|].
  destruct (existsb _ _ && _); [apply scores_never_lowered_refl|].
  intros room' user' s'. unfold score_of in *. simpl.
  rewrite SessionFacts.find_map_same_key
    by (intros p; destruct (Sql.is_member room user p); reflexivity).
  destruct (find (Sql.is_member room' user') (game_players db)) as [p|] eqn:E;
    simpl; [|discriminate].
  destruct (Sql.is_member room user p) eqn:Hp; simpl.
  - intros [= <-]. pose proof (find_some _ _ E) as [_ Hp'].
    destruct (is_member_key _ _ _ _ _ Hp Hp') as [-> ->].
    apply Hle. now rewrite E.
  - intros [= <-]. reflexivity.
Qed.

Lemma insert_game_player_kept fault new_id room user db :
  ScoreFrame.scores_kept db
    (fst (Sql.insert_game_player fault new_id room user db)).
Proof.
  unfold Sql.insert_game_player.
  destruct fault; [apply scores_kept_refl|].
  destruct (existsb _ _) eqn:Hex; [apply scores_kept_refl|].
  destruct (negb _); [apply scores_kept_refl|].
  intros room' user' s'. unfold score_of. simpl. rewrite find_app_one.
  destruct (find (Sql.is_member room' user') (game_players db)) as [p|];
    simpl.
  - intros [= <-]. reflexivity.
  - destruct (Sql.is_member room' user' _); simpl; [|discriminate].
    now intros [= <-].
Qed.

Lemma delete_game_player_kept fault room user db :
  ScoreFrame.scores_kept db (fst (Sql.delete_game_player fault room user db)).
Proof.
  unfold Sql.delete_game_player.
  destruct fault; [apply scores_kept_refl|].
  intros room' user' s'. unfold score_of. simpl.
  assert (H : forall l p,
             find (Sql.is_member room' user')
                  (filter (fun q => negb (Sql.is_member room user q)) l)
             = Some p ->
             find (Sql.is_member room' user') l = Some p).
  { induction l as [|a l IH]; simpl; [discriminate|]. intros p.
    destruct (Sql.is_member room user a) eqn:Ha; simpl.
    - intros Hp. destruct (Sql.is_member room' user' a) eqn:Ha'; [|auto].
      destruct (is_member_key _ _ _ _ _ Ha Ha') as [-> ->].
      now rewrite find_filter_out in Hp.
    - destruct (Sql.is_member room' user' a); auto. }
  destruct (find _ (filter _ _)) as [p|] eqn:E; simpl; [|discriminate].
  rewrite (H _ _ E). simpl. intros [= <-]. reflexivity.
Qed.

Lemma startNewRound_from_players roomId host pick fc fu db st :
  game_players
    (snd (fst (GameRoom.startNewRound_from roomId host pick fc fu db st)))
  = game_players db.
Proof.
  unfold GameRoom.startNewRound_from. destruct host; [|reflexivity]. simpl.
  destruct (data _) as [[|card cards]|]; try reflexivity.
  unfold Sql.update_current_card. destruct fu; [reflexivity|].
  destruct (negb (existsb _ _)); [reflexivity|].
  destruct (negb _); reflexivity.
Qed.

Lemma insert_game_room_players fault new_id name host db :
  game_players (fst (Sql.insert_game_room fault new_id name host db))
  = game_players db.
Proof. unfold Sql.insert_game_room. now destruct fault. Qed.

Lemma insert_user_players fault row db :
  game_players (fst (Sql.insert_user fault row db)) = game_players db.
Proof.
  unfold Sql.insert_user. destruct fault; [reflexivity|].
  now destruct (existsb _ _).
Qed.

Lemma submitAnswer_never_lowered roomId user fu fi mid db st :
  (forall s, score_of db roomId (Auth.id user) = Some s ->
             (s <= GameRoom.cachedScore user st + 1)%Z) ->
  scores_never_lowered db
    (snd (fst (GameRoom.submitAnswer roomId user fu fi mid db st))).
Proof.
  intros Hle. unfold GameRoom.submitAnswer.
  destruct (GameRoom.currentCard st) as [card|];
    [|apply scores_never_lowered_refl].
  destruct (negb _); [apply scores_never_lowered_refl|].
  destruct (isCorrect _ _); [|apply scores_never_lowered_refl].
  pose proof (update_score_never_lowered fu roomId (Auth.id user)
                (GameRoom.newScore user st) db Hle) as H.
  destruct (Sql.update_score _ _ _ _ _) as [db1 r]. simpl in H.
  destruct (Postgrest.error r); simpl; [exact H|].
  intros room' user' s'. unfold score_of.
  rewrite SqlFacts.insert_match_history_players. apply H.
Qed.

Lemma GameLobby_joinRoom_kept auth fault pid roomId db st :
  ScoreFrame.scores_kept db
    (snd (fst (GameLobby.joinRoom auth fault pid roomId db st))).
Proof.
  unfold GameLobby.joinRoom.
  destruct (Auth.user auth) as [u|]; [|apply scores_kept_refl].
  pose proof (insert_game_player_kept fault pid roomId (Auth.id u) db)
    as H.
  destruct (Sql.insert_game_player _ _ _ _ _) as [db1 r]. simpl in H.
  destruct (Postgrest.error r) as [e|]; [|exact H].
  destruct (code e =? "23505"); exact H.
Qed.

Lemma PriorGameLobby_joinRoom_kept auth fault pid roomId db st :
  ScoreFrame.scores_kept db
    (snd (fst (PriorGameLobby.joinRoom auth fault pid roomId db st))).
Proof.
  unfold PriorGameLobby.joinRoom.
  destruct (Auth.error auth); [apply scores_kept_refl|].
  destruct (Auth.user auth) as [u|]; [|apply scores_kept_refl].
  pose proof (insert_game_player_kept fault pid roomId (Auth.id u) db)
    as H.
  destruct (Sql.insert_game_player _ _ _ _ _) as [db1 r]. simpl in H.
  destruct (Postgrest.error r) as [e|]; [|exact H].
  destruct (code e =? "23505"); exact H.
Qed.

Lemma GameLobby_createRoom_kept auth fr rid fj pid db st :
  ScoreFrame.scores_kept db
    (snd (fst (GameLobby.createRoom auth fr rid fj pid db st))).
Proof.
  unfold GameLobby.createRoom.
  destruct (negb _); [apply scores_kept_refl|].
  destruct (Auth.user auth) as [u|]; [|apply scores_kept_refl].
  pose proof (insert_game_room_players fr rid (Lobby.newRoomName st)
                (Auth.id u) db) as E.
  destruct (Sql.insert_game_room _ _ _ _ _) as [db1 r]. simpl in E.
  destruct (Postgrest.error (Lobby.single_row r));
    [now apply scores_kept_players|].
  destruct (data (Lobby.single_row r)) as [d|];
    [|now apply scores_kept_players].
  pose proof (insert_game_player_kept fj pid (GameRooms.id d)
                (Auth.id u) db1) as H.
  destruct (Sql.insert_game_player _ _ _ _ _) as [db2 rj]. simpl in H.
  apply (scores_kept_from db db1 db2 E) in H.
  destruct (Postgrest.error rj); exact H.
Qed.

Lemma PriorGameLobby_createRoom_kept
      auth fp fn fr rid fj pid db st :
  ScoreFrame.scores_kept db
    (snd (fst (PriorGameLobby.createRoom auth fp fn fr rid fj pid db st))).
Proof.
  unfold PriorGameLobby.createRoom.
  destruct (negb _); [apply scores_kept_refl|].
  destruct (Auth.error auth); [apply scores_kept_refl|].
  destruct (Auth.user auth) as [u|]; [|apply scores_kept_refl].
  assert (E0 : game_players
                 (fst match data (Sql.select_user fp (Auth.id u) db) with
                      | Some _ => (db, @nil Effect)
                      | None =>
                          let '(db', rp) :=
                            Sql.insert_user fn (PriorGameLobby.profile_of u) db
                          in
                          (db',
                           match Postgrest.error rp with
                           | Some profileError =>
                               [console_error "Error creating user profile:"
                                  (Postgrest.message profileError)]
                           | None => []
                           end)
                      end) = game_players db).
  { destruct (data _); [reflexivity|].
    pose proof (insert_user_players fn (PriorGameLobby.profile_of u) db) as E.
    now destruct (Sql.insert_user _ _ _). }
  destruct (match data (Sql.select_user fp (Auth.id u) db) with
            | Some _ => _ | None => _ end) as [db0 log0].
  simpl in E0.
  pose proof (insert_game_room_players fr rid (Lobby.newRoomName st)
                (Auth.id u) db0) as E.
  destruct (Sql.insert_game_room _ _ _ _ _) as [db1 r]. simpl in E.
  rewrite E0 in E.
  destruct (Postgrest.error r); [now apply scores_kept_players|].
  destruct (data r) as [[|d0 rows]|];
    try now apply scores_kept_players.
  pose proof (insert_game_player_kept fj pid (GameRooms.id d0)
                (Auth.id u) db1) as H.
  destruct (Sql.insert_game_player _ _ _ _ _) as [db2 rj]. simpl in H.
  exact (scores_kept_from db db1 db2 E H).
Qed.

Lemma only_written_refl room user written db :
  ScoreFrame.only_written room user written db db.
Proof. intros room' user' s' E. exists s'. auto. Qed.

Lemma update_score_only_written fault room user newScore db :
  ScoreFrame.only_written room user newScore db
    (fst (Sql.update_score fault room user newScore db)).
Proof.
  unfold Sql.update_score. destruct fault; [apply only_written_refl|].
  destruct (existsb _ _ && _); [apply only_written_refl|].
  intros room' user' s'. unfold score_of. simpl.
  rewrite SessionFacts.find_map_same_key
    by (intros p; destruct (Sql.is_member room user p); reflexivity).
  destruct (find (Sql.is_member room' user') (game_players db)) as [p|] eqn:E;
    simpl; [|discriminate].
  exists (GamePlayers.score p). split; [reflexivity|].
  destruct (Sql.is_member room user p) eqn:Hp; simpl in *.
  - injection H as <-. right. apply find_some in E. destruct E as [_ Hp'].
    destruct (is_member_key _ _ _ _ _ Hp Hp') as [-> ->]. auto.
  - injection H as <-. now left.
Qed.

Lemma submitAnswer_only_written roomId user fu fi mid db st :
  ScoreFrame.only_written roomId (Auth.id user)
    (GameRoom.cachedScore user st + 1) db
    (snd (fst (GameRoom.submitAnswer roomId user fu fi mid db st))).
Proof.
  unfold GameRoom.submitAnswer.
  destruct (GameRoom.currentCard st) as [card|]; [|apply only_written_refl].
  destruct (negb _); [apply only_written_refl|].
  destruct (isCorrect _ _); [|apply only_written_refl].
  pose proof (update_score_only_written fu roomId (Auth.id user)
                (GameRoom.newScore user st) db) as H.
  destruct (Sql.update_score _ _ _ _ _) as [db1 r]. simpl in H.
  destruct (Postgrest.error r); simpl; [exact H|].
  intros room' user' s'. unfold score_of.
  rewrite SqlFacts.insert_match_history_players. apply H.
Qed.

(** C6, amended: a membership starts at score 0 at join, and
    [startNewRound] (called or fired by the timer), leaving, joining and
    creating a room, in both lobbies, never change a stored score: every
    membership stored afterwards has the score it had, or is new and has
    0.  [submitAnswer] creates no membership and changes no score but the
    submitter's in this room, to which it writes the cached score plus
    one; that lowers no stored score when the stored score of the
    submitter is at most the cached score plus one.  Scores that are
    kept are not lowered. *)
Theorem handlers_never_lower_a_score :
  (forall roomId user fault_update fault_insert match_id db st,
      ScoreFrame.only_written roomId (Auth.id user)
        (GameRoom.cachedScore user st + 1) db
        (snd (fst (GameRoom.submitAnswer roomId user fault_update
                     fault_insert match_id db st)))
      /\ ((forall s, score_of db roomId (Auth.id user) = Some s ->
                     (s <= GameRoom.cachedScore user st + 1)%Z) ->
          scores_never_lowered db
            (snd (fst (GameRoom.submitAnswer roomId user fault_update
                         fault_insert match_id db st)))))
  /\ (forall roomId pick fault_cards fault_update db st,
         ScoreFrame.scores_kept db
           (snd (fst (GameRoom.startNewRound roomId pick fault_cards
                        fault_update db st))))
  /\ (forall roomId cb pick fault_cards fault_update db st,
         ScoreFrame.scores_kept db
           (snd (fst (GameRoom.run_callback roomId cb pick fault_cards
                        fault_update db st))))
  /\ (forall roomId user fault db,
         ScoreFrame.scores_kept db
           (fst (GameRoom.leaveRoom roomId user fault db)))
  /\ (forall auth fault player_id roomId db st,
         ScoreFrame.scores_kept db
           (snd (fst (GameLobby.joinRoom auth fault player_id roomId db st)))
         /\ ScoreFrame.scores_kept db
              (snd (fst (PriorGameLobby.joinRoom auth fault player_id roomId
                           db st))))
  /\ (forall auth fault_room room_id fault_join player_id db st,
         ScoreFrame.scores_kept db
           (snd (fst (GameLobby.createRoom auth fault_room room_id fault_join
                        player_id db st))))
  /\ (forall auth fault_profile fault_new_profile fault_room room_id
             fault_join player_id db st,
         ScoreFrame.scores_kept db
           (snd (fst (PriorGameLobby.createRoom auth fault_profile
                        fault_new_profile fault_room room_id fault_join
                        player_id db st))))
  /\ (forall db db',
         ScoreFrame.scores_kept db db' -> scores_never_lowered db db').
Proof.
  split.
  { intros. split; [apply submitAnswer_only_written|].
    apply submitAnswer_never_lowered. }
  split.
  { intros. apply scores_kept_players.
    apply startNewRound_from_players. }
  split.
  { intros roomId [[|]] pick fc fu db st.
    - apply scores_kept_players.
      exact (startNewRound_from_players roomId true pick fc fu db st).
    - apply scores_kept_refl. }
  split.
  { intros. apply delete_game_player_kept. }
  split.
  { intros; split.
    - apply GameLobby_joinRoom_kept.
    - apply PriorGameLobby_joinRoom_kept. }
  split; [apply GameLobby_createRoom_kept|].
  split; [apply PriorGameLobby_createRoom_kept|].
  apply scores_kept_never_lowered.
Qed.

End ScoreFacts.

(** ** fetchCurrentCard *)

Module CardFacts.

Lemma single_filter_In {A : Type} (key : A -> bool) (l : list A) a :
  data (single (filter key l)) = Some a -> In a l /\ key a = true.
Proof.
  intros H. apply SessionFacts.single_filter_find in H.
  now apply find_some in H.
Qed.

(** C8, amended: [fetchCurrentCard] reads the room's [current_card_id].
    When it is set (to a non-zero id) and the lookup of the flashcard
    returns a row, that row, which is the flashcard of the store with
    this id, becomes the current card of the component.  When it is null
    the component is left as it was: one that shows no card, as after the
    mount, keeps awaiting the round. *)
Theorem fetchCurrentCard_sets_the_card_or_keeps_the_state roomId db st :
  (forall fault_room fault_card row card cardData,
      data (Sql.select_room fault_room roomId db) = Some row ->
      GameRooms.current_card_id row = Some card ->
      card <> 0%Z ->
      data (Sql.select_flashcard fault_card card db) = Some cardData ->
      GameRoom.fetchCurrentCard roomId fault_room fault_card db st
      = GameRoom.setCurrentCard (Some cardData) st
      /\ Flashcards.id cardData = card
      /\ In cardData (flashcards db))
  /\ (forall fault_room fault_card row,
         data (Sql.select_room fault_room roomId db) = Some row ->
         GameRooms.current_card_id row = None ->
         GameRoom.fetchCurrentCard roomId fault_room fault_card db st = st
         /\ (GameRoom.currentCard st = None ->
             GameRoom.currentCard
               (GameRoom.fetchCurrentCard roomId fault_room fault_card db st)
             = None)).
Proof.
  split.
  - intros fr fc row card cardData Hrow Hid Hnz Hcard.
    unfold GameRoom.fetchCurrentCard. rewrite Hrow. simpl. rewrite Hid.
    destruct (Z.eqb_spec card 0) as [|_]; [contradiction|].
    rewrite Hcard. split; [reflexivity|].
    unfold Sql.select_flashcard in Hcard.
    destruct fc; [discriminate|].
    apply single_filter_In in Hcard. destruct Hcard as [Hin Hkey].
    apply Z.eqb_eq in Hkey. auto.
  - intros fr fc row Hrow Hid.
    unfold GameRoom.fetchCurrentCard. rewrite Hrow. simpl. rewrite Hid.
    auto.
Qed.

End CardFacts.

(** ** The lobby *)

Module LobbyFacts.
Import Session.

Lemma filter_nil_existsb {A : Type} (key : A -> bool) (l : list A) :
  existsb key l = false -> filter key l = [].
Proof.
  induction l as [|a l IH]; simpl; [reflexivity|].
  destruct (key a); simpl; [discriminate | exact IH].
Qed.

Lemma existsb_filter_length {A : Type} (key : A -> bool) (l : list A) :
  existsb key l = true -> 1 <= List.length (filter key l).
Proof.
  induction l as [|a l IH]; simpl; [discriminate|].
  destruct (key a); simpl; [lia | exact IH].
Qed.

Lemma length_filter_existsb {A : Type} (key : A -> bool) (l : list A) :
  List.length (filter key l) = 1 -> existsb key l = true.
Proof.
  intros H. destruct (existsb key l) eqn:E; [reflexivity|].
  now rewrite (filter_nil_existsb _ _ E) in H.
Qed.

(** The store's answer to the insert of a membership: one row of the
    account in the room afterwards, whether the statement inserted it or
    was refused as a duplicate. *)
Lemma insert_game_player_once new_id room user db :
  unique_members db ->
  Sql.room_exists db room = true ->
  memberships (fst (Sql.insert_game_player None new_id room user db))
              room user = 1
  /\ (Postgrest.error (snd (Sql.insert_game_player None new_id room user db))
      = None
      \/ Postgrest.error
           (snd (Sql.insert_game_player None new_id room user db))
         = Some unique_violation).
Proof.
  intros Huniq Hroom. unfold Sql.insert_game_player, memberships.
  destruct (existsb _ _) eqn:Hex; simpl.
  - split; [|auto]. apply existsb_filter_length in Hex.
    specialize (Huniq room user). unfold memberships in Huniq. lia.
  - rewrite Hroom. simpl. split; [|auto].
    rewrite filter_app, (filter_nil_existsb _ _ Hex). simpl.
    unfold Sql.is_member. simpl. now rewrite !String.eqb_refl.
Qed.

(** A second insert of the same membership is refused as a duplicate and
    changes nothing. *)
Lemma insert_game_player_again new_id room user db :
  memberships db room user = 1 ->
  Sql.insert_game_player None new_id room user db
  = (db, failed unique_violation).
Proof.
  intros H. apply length_filter_existsb in H.
  unfold Sql.insert_game_player. now rewrite H.
Qed.

(** [UNIQUE(room_id, user_id)] is an invariant of the store: the three
    statements on [game_players] keep it. *)
Lemma length_filter_map_same_key {A : Type} (key : A -> bool) (f : A -> A)
      (l : list A) :
  (forall a, key (f a) = key a) ->
  List.length (filter key (map f l)) = List.length (filter key l).
Proof.
  intros Hkey. induction l as [|a l IH]; simpl; [reflexivity|].
  rewrite Hkey. destruct (key a); simpl; congruence.
Qed.

Lemma length_filter_filter {A : Type} (key keep : A -> bool) (l : list A) :
  List.length (filter key (filter keep l)) <= List.length (filter key l).
Proof.
  induction l as [|a l IH]; simpl; [lia|].
  destruct (keep a), (key a) eqn:E; simpl; rewrite ?E; simpl; lia.
Qed.

Lemma update_score_unique fault room user newScore db :
  unique_members db ->
  unique_members (fst (Sql.update_score fault room user newScore db)).
Proof.
  intros H. unfold Sql.update_score. destruct fault; [exact H|].
  destruct (existsb _ _ && _); [exact H|].
  intros room' user'. unfold memberships. simpl.
  rewrite length_filter_map_same_key; [apply H|].
  intros p. now destruct (Sql.is_member room user p).
Qed.

Lemma delete_game_player_unique fault room user db :
  unique_members db ->
  unique_members (fst (Sql.delete_game_player fault room user db)).
Proof.
  intros H. unfold Sql.delete_game_player. destruct fault; [exact H|].
  intros room' user'. unfold memberships. simpl.
  pose proof (length_filter_filter (Sql.is_member room' user')
                (fun p => negb (Sql.is_member room user p)) (game_players db)).
  specialize (H room' user'). unfold memberships in H. lia.
Qed.

Lemma insert_game_player_unique fault new_id room user db :
  unique_members db ->
  unique_members (fst (Sql.insert_game_player fault new_id room user db)).
Proof.
  intros H. unfold Sql.insert_game_player. destruct fault; [exact H|].
  destruct (existsb _ _) eqn:Hex; [exact H|].
  destruct (negb _); [exact H|].
  intros room' user'. unfold memberships. simpl.
  rewrite filter_app, length_app. simpl.
  destruct (Sql.is_member room' user' _) eqn:Hnew; simpl.
  - unfold Sql.is_member in Hnew. simpl in Hnew.
    apply andb_true_iff in Hnew. destruct Hnew as [Hr Hu].
    apply String.eqb_eq in Hr, Hu. subst room' user'.
    now rewrite (filter_nil_existsb _ _ Hex).
  - specialize (H room' user'). unfold memberships in H. lia.
Qed.

Lemma GameLobby_joinRoom_first auth user new_id roomId db st :
  Auth.user auth = Some user ->
  unique_members db ->
  Sql.room_exists db roomId = true ->
  exists db1 effs,
    GameLobby.joinRoom auth None new_id roomId db st
    = (Lobby.setActiveRoom (Some roomId) st, db1, effs)
    /\ filter user_visible effs = []
    /\ memberships db1 roomId (Auth.id user) = 1.
Proof.
  intros Huser Huniq Hroom.
  destruct (insert_game_player_once new_id roomId (Auth.id user) db
              Huniq Hroom) as [Hone Herr].
  unfold GameLobby.joinRoom. rewrite Huser.
  destruct (Sql.insert_game_player None new_id roomId (Auth.id user) db)
    as [db1 r].
  simpl in Hone, Herr. destruct Herr as [-> | ->]; simpl; eauto.
Qed.

Lemma GameLobby_joinRoom_again auth user new_id roomId db st :
  Auth.user auth = Some user ->
  memberships db roomId (Auth.id user) = 1 ->
  GameLobby.joinRoom auth None new_id roomId db st
  = (Lobby.setActiveRoom (Some roomId) st, db,
     [console_error "Error joining room:"
                    (Postgrest.message unique_violation)]).
Proof.
  intros Huser Hone. unfold GameLobby.joinRoom. rewrite Huser.
  now rewrite (insert_game_player_again new_id roomId (Auth.id user) db Hone).
Qed.

Lemma PriorGameLobby_joinRoom_first auth user new_id roomId db st :
  Auth.user auth = Some user ->
  Auth.error auth = None ->
  unique_members db ->
  Sql.room_exists db roomId = true ->
  exists db1 effs,
    PriorGameLobby.joinRoom auth None new_id roomId db st
    = (Lobby.setActiveRoom (Some roomId) st, db1, effs)
    /\ filter user_visible effs = []
    /\ memberships db1 roomId (Auth.id user) = 1.
Proof.
  intros Huser Hnoerr Huniq Hroom.
  destruct (insert_game_player_once new_id roomId (Auth.id user) db
              Huniq Hroom) as [Hone Herr].
  unfold PriorGameLobby.joinRoom. rewrite Huser, Hnoerr.
  destruct (Sql.insert_game_player None new_id roomId (Auth.id user) db)
    as [db1 r].
  simpl in Hone, Herr. destruct Herr as [-> | ->]; simpl; eauto.
Qed.

Lemma PriorGameLobby_joinRoom_again auth user new_id roomId db st :
  Auth.user auth = Some user ->
  Auth.error auth = None ->
  memberships db roomId (Auth.id user) = 1 ->
  PriorGameLobby.joinRoom auth None new_id roomId db st
  = (Lobby.setActiveRoom (Some roomId) st, db,
     [console_error "Error joining room:"
                    (Postgrest.message unique_violation)]).
Proof.
  intros Huser Hnoerr Hone. unfold PriorGameLobby.joinRoom.
  rewrite Huser, Hnoerr.
  now rewrite (insert_game_player_again new_id roomId (Auth.id user) db Hone).
Qed.

(** C3: with the account signed in and the room in the store, joining
    twice leaves exactly one membership row of the account in the room;
    neither join puts a message before the user and the second, refused
    by the store with the unique-violation code, enters the room like the
    first.  An error with the code 23505 enters the room without a
    message; an error with any other code is shown to the user with its
    message, and the lobby stays.  Both lobbies do so. *)
Theorem joinRoom_twice_keeps_one_membership :
  (forall auth user id1 id2 roomId db st,
      Auth.user auth = Some user ->
      Auth.error auth = None ->
      unique_members db ->
      Sql.room_exists db roomId = true ->
      (let r1 := GameLobby.joinRoom auth None id1 roomId db st in
       let r2 := GameLobby.joinRoom auth None id2 roomId (snd (fst r1))
                                    (fst (fst r1)) in
       memberships (snd (fst r2)) roomId (Auth.id user) = 1
       /\ filter user_visible (snd r1) = []
       /\ filter user_visible (snd r2) = []
       /\ Lobby.activeRoom (fst (fst r1)) = Some roomId
       /\ Lobby.activeRoom (fst (fst r2)) = Some roomId
       /\ snd r2 = [console_error "Error joining room:"
                                  (Postgrest.message unique_violation)])
      /\ (let r1 := PriorGameLobby.joinRoom auth None id1 roomId db st in
          let r2 := PriorGameLobby.joinRoom auth None id2 roomId
                      (snd (fst r1)) (fst (fst r1)) in
          memberships (snd (fst r2)) roomId (Auth.id user) = 1
          /\ filter user_visible (snd r1) = []
          /\ filter user_visible (snd r2) = []
          /\ Lobby.activeRoom (fst (fst r1)) = Some roomId
          /\ Lobby.activeRoom (fst (fst r2)) = Some roomId
          /\ snd r2 = [console_error "Error joining room:"
                                     (Postgrest.message unique_violation)]))
  /\ (forall auth user e player_id roomId db st,
         Auth.user auth = Some user ->
         Auth.error auth = None ->
         (code e = "23505" ->
          GameLobby.joinRoom auth (Some e) player_id roomId db st
          = (Lobby.setActiveRoom (Some roomId) st, db,
             [console_error "Error joining room:" (Postgrest.message e)])
          /\ PriorGameLobby.joinRoom auth (Some e) player_id roomId db st
             = (Lobby.setActiveRoom (Some roomId) st, db,
                [console_error "Error joining room:" (Postgrest.message e)]))
         /\ (code e <> "23505" ->
             GameLobby.joinRoom auth (Some e) player_id roomId db st
             = (st, db,
                [console_error "Error joining room:" (Postgrest.message e);
                 toast "Error"
                       ("Failed to join room: " ++ Postgrest.message e)
                       destructive])
             /\ PriorGameLobby.joinRoom auth (Some e) player_id roomId db st
                = (st, db,
                   [console_error "Error joining room:" (Postgrest.message e);
                    alert ("Failed to join room: " ++ Postgrest.message e)]))).
Proof.
  split.
  - intros auth user id1 id2 roomId db st Huser Hnoerr Huniq Hroom.
    destruct (GameLobby_joinRoom_first auth user id1 roomId db st
                Huser Huniq Hroom) as (db1 & effs & E1 & Hvis & Hone).
    destruct (PriorGameLobby_joinRoom_first auth user id1 roomId db st
                Huser Hnoerr Huniq Hroom)
      as (db1' & effs' & E1' & Hvis' & Hone').
    rewrite E1, E1'. cbn [fst snd].
    rewrite (GameLobby_joinRoom_again auth user id2 roomId db1 _ Huser Hone).
    rewrite (PriorGameLobby_joinRoom_again auth user id2 roomId db1' _
               Huser Hnoerr Hone').
    cbn [fst snd]. repeat split; assumption || reflexivity.
  - intros auth user e pid roomId db st Huser Hnoerr.
    unfold GameLobby.joinRoom, PriorGameLobby.joinRoom.
    rewrite Huser, Hnoerr. simpl. split; intros Hcode.
    + apply String.eqb_eq in Hcode. rewrite Hcode. auto.
    + apply String.eqb_neq in Hcode. rewrite Hcode. auto.
Qed.

(** What the lobby lists for a room of the store. *)
Lemma with_count_embed_players db r :
  Lobby.with_count (Lobby.embed_players db r) =
  {| Lobby.id := GameRooms.id r; Lobby.name := GameRooms.name r;
     Lobby.host_id := GameRooms.host_id r;
     Lobby.is_active := GameRooms.is_active r;
     Lobby.player_count :=
       Z.of_nat (List.length
                   (filter (fun p => GamePlayers.room_id p =? GameRooms.id r)
                           (game_players db))) |}.
Proof.
  unfold Lobby.with_count, Lobby.embed_players. simpl.
  now rewrite length_map.
Qed.

(** [src/components/GameLobby.tsx]: when the store answers the query,
    the lobby lists the active rooms of the store, every one of them,
    each with the number of its membership rows: 0 for a room that has
    none. *)
Lemma GameLobby_fetchRooms_lists_every_active_room db st :
  GameLobby.fetchRooms None db st
  = (Lobby.setRooms
       (map (fun r => Lobby.with_count (Lobby.embed_players db r))
            (filter GameRooms.is_active (game_rooms db))) st, [])
  /\ (forall r,
         In r (game_rooms db) -> GameRooms.is_active r = true ->
         In (Lobby.with_count (Lobby.embed_players db r))
            (Lobby.rooms (fst (GameLobby.fetchRooms None db st))))
  /\ (forall r,
         In r (game_rooms db) -> GameRooms.is_active r = true ->
         (forall p, In p (game_players db) ->
                    GamePlayers.room_id p <> GameRooms.id r) ->
         In {| Lobby.id := GameRooms.id r; Lobby.name := GameRooms.name r;
               Lobby.host_id := GameRooms.host_id r;
               Lobby.is_active := true; Lobby.player_count := 0 |}
            (Lobby.rooms (fst (GameLobby.fetchRooms None db st)))).
Proof.
  assert (E : GameLobby.fetchRooms None db st
              = (Lobby.setRooms
                   (map (fun r => Lobby.with_count (Lobby.embed_players db r))
                        (filter GameRooms.is_active (game_rooms db))) st, [])).
  { unfold GameLobby.fetchRooms. simpl. now rewrite map_map. }
  assert (H : forall r,
             In r (game_rooms db) -> GameRooms.is_active r = true ->
             In (Lobby.with_count (Lobby.embed_players db r))
                (Lobby.rooms (fst (GameLobby.fetchRooms None db st)))).
  { intros r Hin Hact. rewrite E. simpl.
    apply in_map_iff. exists r. split; [reflexivity|].
    apply filter_In. auto. }
  split; [exact E|]. split; [exact H|].
  intros r Hin Hact Hnone. specialize (H r Hin Hact).
  rewrite with_count_embed_players in H. rewrite Hact in H.
  replace (filter _ (game_players db)) with (@nil GamePlayers.Row) in H;
    [exact H|].
  symmetry. apply filter_nil_existsb.
  destruct (existsb _ _) eqn:Hex; [|reflexivity].
  apply existsb_exists in Hex. destruct Hex as (p & Hp & Hk).
  apply String.eqb_eq in Hk. now destruct (Hnone p Hp).
Qed.

(** The earlier lobby lists only rooms that have a membership row. *)
Lemma PriorGameLobby_fetchRooms_lists_only_rooms_with_players db st g :
  In g (Lobby.rooms (PriorGameLobby.fetchRooms None db st)) ->
  (1 <= Lobby.player_count g)%Z.
Proof.
  unfold PriorGameLobby.fetchRooms. simpl. rewrite in_map_iff.
  intros (rp & <- & Hin). apply filter_In in Hin. destruct Hin as [_ Hne].
  unfold Lobby.with_count. simpl.
  destruct (List.length (snd rp)); [discriminate | lia].
Qed.

(** C4 fails on the earlier lobby: the room [quiz1] is active and has no
    membership row; the lobby of [src/components/GameLobby.tsx] lists it
    with [player_count] 0, the earlier one, with its inner join, lists
    nothing. *)
Theorem PriorGameLobby_fetchRooms_hides_the_room_without_players :
  GameRooms.is_active (Sample.quiz1 None) = true
  /\ game_rooms (Sample.store_with None []) = [Sample.quiz1 None]
  /\ game_players (Sample.store_with None []) = []
  /\ Lobby.rooms
       (fst (GameLobby.fetchRooms None (Sample.store_with None [])
               Lobby.initial))
     = [{| Lobby.id := "quiz1"; Lobby.name := "Quiz1";
           Lobby.host_id := "alice"; Lobby.is_active := true;
           Lobby.player_count := 0 |}]
  /\ Lobby.rooms
       (PriorGameLobby.fetchRooms None (Sample.store_with None [])
          Lobby.initial)
     = [].
Proof. repeat split. Qed.

(** C9, amended: with a room name that is empty after trimming,
    [createRoom] returns at once in both lobbies: no room and no
    membership is inserted, the store and the lobby are what they were,
    and nothing is reported, neither to the user nor on the console. *)
Theorem createRoom_blank_name_returns_silently st :
  Js.trim (Lobby.newRoomName st) = "" ->
  (forall auth fault_room room_id fault_join player_id db,
      GameLobby.createRoom auth fault_room room_id fault_join player_id db st
      = (st, db, []))
  /\ (forall auth fault_profile fault_new_profile fault_room room_id
             fault_join player_id db,
         PriorGameLobby.createRoom auth fault_profile fault_new_profile
           fault_room room_id fault_join player_id db st
         = (st, db, [])).
Proof.
  intros Hblank.
  unfold GameLobby.createRoom, PriorGameLobby.createRoom.
  rewrite Hblank. simpl. auto.
Qed.

End LobbyFacts.

(** C1 as stated fails: bob's answer is correct, the score update is
    answered with an error, and neither the score nor a match record is
    written. *)
Lemma submitAnswer_correct_update_rejected_not_credited :
  GameRoom.currentCard (Sample.bob_answers "paris") = Some Sample.paris
  /\ Js.trim (GameRoom.userAnswer (Sample.bob_answers "paris")) <> ""
  /\ isCorrect (GameRoom.userAnswer (Sample.bob_answers "paris"))
               (Flashcards.answer Sample.paris) = true
  /\ ~ credits_submitter "quiz1" Sample.bob Sample.paris
         (GameRoom.cachedScore Sample.bob (Sample.bob_answers "paris"))
         (Sample.bob_in_quiz1 0)
         (snd (fst (GameRoom.submitAnswer "quiz1" Sample.bob
                      (Some Sample.unreachable_store) None "h1"
                      (Sample.bob_in_quiz1 0)
                      (Sample.bob_answers "paris"))))
  /\ match_history
       (snd (fst (GameRoom.submitAnswer "quiz1" Sample.bob
                    (Some Sample.unreachable_store) None "h1"
                    (Sample.bob_in_quiz1 0)
                    (Sample.bob_answers "paris")))) = [].
Proof.
  split; [reflexivity|]. split; [vm_compute; discriminate|].
  split; [reflexivity|]. split; [|reflexivity].
  intros [Hscore _]. vm_compute in Hscore. discriminate.
Qed.

(** Bob answers "paris" to the card of [quiz1] and the store accepts
    both statements. *)
Lemma submitAnswer_correct_credits_submitter_witness :
  credits_submitter "quiz1" Sample.bob Sample.paris 0
    (Sample.bob_in_quiz1 0)
    (snd (fst (GameRoom.submitAnswer "quiz1" Sample.bob None None "h1"
                 (Sample.bob_in_quiz1 0) (Sample.bob_answers "paris")))).
Proof.
  apply (submitAnswer_correct_credits_submitter "quiz1" Sample.bob None None
           "h1" (Sample.bob_in_quiz1 0) (Sample.bob_answers "paris")
           Sample.paris);
    try reflexivity.
  vm_compute; discriminate.
Defined.

(** Bob answers "London". *)
Lemma submitAnswer_incorrect_witness :
  exists st',
    GameRoom.submitAnswer "quiz1" Sample.bob None None "h1"
      (Sample.bob_in_quiz1 0) (Sample.bob_answers "London")
    = (st', Sample.bob_in_quiz1 0, [])
    /\ GameRoom.feedback st' =
         Some {| GameRoom.message := "Wrong! The correct answer was: Paris";
                 GameRoom.type := GameRoom.error |}
    /\ GameRoom.currentCard st' = Some Sample.paris
    /\ GameRoom.players st' = []
    /\ GameRoom.isHost st' = false.
Proof.
  apply (submitAnswer_incorrect_reveals_answer_and_writes_nothing
           "quiz1" Sample.bob None None "h1" (Sample.bob_in_quiz1 0)
           (Sample.bob_answers "London") Sample.paris);
    try reflexivity.
  vm_compute; discriminate.
Defined.

(** Bob answers "paris" and the store cannot be reached. *)
Lemma submitAnswer_update_error_witness :
  exists st',
    GameRoom.submitAnswer "quiz1" Sample.bob (Some Sample.unreachable_store)
      None "h1" (Sample.bob_in_quiz1 0) (Sample.bob_answers "paris")
    = (st', Sample.bob_in_quiz1 0,
       [console_error "Error updating score:" "TypeError: Failed to fetch"])
    /\ GameRoom.feedback st' =
         Some {| GameRoom.message := "Error updating score. Please try again.";
                 GameRoom.type := GameRoom.error |}
    /\ Session.scheduled
         (snd (GameRoom.submitAnswer "quiz1" Sample.bob
                 (Some Sample.unreachable_store) None "h1"
                 (Sample.bob_in_quiz1 0) (Sample.bob_answers "paris"))) = [].
Proof.
  apply (proj1 (submitAnswer_update_error_stops "quiz1" Sample.bob)
               (Some Sample.unreachable_store) None "h1"
               (Sample.bob_in_quiz1 0) (Sample.bob_answers "paris")
               Sample.paris Sample.unreachable_store);
    try reflexivity.
  vm_compute; discriminate.
Defined.

(** C6 as stated fails: bob, whose stored score is 3, answers from a
    component that has fetched the card and not yet the players; the
    configuration is reached from the mount, and the handler writes 1
    over the 3. *)
Lemma submitAnswer_with_empty_cache_lowers_the_score :
  Session.reachable "quiz1" Sample.bob
    {| Session.store := Sample.bob_in_quiz1 3;
       Session.state := Sample.bob_answers "paris";
       Session.timers := [] |}
  /\ Session.score_of (Sample.bob_in_quiz1 3) "quiz1" "bob" = Some 3%Z
  /\ Session.score_of
       (snd (fst (GameRoom.submitAnswer "quiz1" Sample.bob None None "h1"
                    (Sample.bob_in_quiz1 3) (Sample.bob_answers "paris"))))
       "quiz1" "bob" = Some 1%Z
  /\ ~ Session.scores_never_lowered (Sample.bob_in_quiz1 3)
         (snd (fst (GameRoom.submitAnswer "quiz1" Sample.bob None None "h1"
                      (Sample.bob_in_quiz1 3) (Sample.bob_answers "paris")))).
Proof.
  split.
  { apply (Session.reachable_step "quiz1" Sample.bob
             {| Session.store := Sample.bob_in_quiz1 3;
                Session.state :=
                  GameRoom.setCurrentCard (Some Sample.paris) GameRoom.initial;
                Session.timers := [] |}).
    - apply (Session.reachable_step "quiz1" Sample.bob
               {| Session.store := Sample.bob_in_quiz1 3;
                  Session.state := GameRoom.initial;
                  Session.timers := [] |}).
      + apply Session.reachable_mount.
      + exact (Session.step_fetchCurrentCard "quiz1" Sample.bob
                 {| Session.store := Sample.bob_in_quiz1 3;
                    Session.state := GameRoom.initial;
                    Session.timers := [] |} None None).
    - exact (Session.step_onChange "quiz1" Sample.bob
               {| Session.store := Sample.bob_in_quiz1 3;
                  Session.state :=
                    GameRoom.setCurrentCard (Some Sample.paris)
                                            GameRoom.initial;
                  Session.timers := [] |} "paris"). }
  split; [reflexivity|]. split; [reflexivity|].
  intros H. specialize (H "quiz1" "bob" 1%Z eq_refl).
  vm_compute in H. apply H. reflexivity.
Qed.

(** Bob answers "paris" with the stored score 0 and an empty cache. *)
Lemma handlers_never_lower_a_score_witness :
  Session.scores_never_lowered (Sample.bob_in_quiz1 0)
    (snd (fst (GameRoom.submitAnswer "quiz1" Sample.bob None None "h1"
                 (Sample.bob_in_quiz1 0) (Sample.bob_answers "paris")))).
Proof.
  apply (proj2 (proj1 ScoreFacts.handlers_never_lower_a_score
                      "quiz1" Sample.bob None None "h1"
                      (Sample.bob_in_quiz1 0) (Sample.bob_answers "paris"))).
  intros s H. vm_compute in H. injection H as <-. vm_compute. discriminate.
Defined.



(** C8 as stated fails: the room awaits its round, the component still
    holds the card [paris], and after [fetchCurrentCard] it still shows
    it. *)
Lemma fetchCurrentCard_null_keeps_the_shown_card :
  Session.current_card_of (Sample.store_with None []) "quiz1" = Some None
  /\ GameRoom.currentCard
       (GameRoom.fetchCurrentCard "quiz1" None None
          (Sample.store_with None []) (Sample.bob_answers ""))
     = Some Sample.paris
  /\ GameRoom.currentCard
       (GameRoom.fetchCurrentCard "quiz1" None None
          (Sample.store_with None []) (Sample.bob_answers ""))
     <> None.
Proof.
  split; [reflexivity|]. split; [reflexivity|]. vm_compute. discriminate.
Qed.

(** A mounted component fetches the card of [quiz1]. *)
Lemma fetchCurrentCard_witness :
  GameRoom.fetchCurrentCard "quiz1" None None (Sample.bob_in_quiz1 0)
    GameRoom.initial
  = GameRoom.setCurrentCard (Some Sample.paris) GameRoom.initial
  /\ Flashcards.id Sample.paris = 1%Z
  /\ In Sample.paris (flashcards (Sample.bob_in_quiz1 0)).
Proof.
  apply (proj1 (CardFacts.fetchCurrentCard_sets_the_card_or_keeps_the_state
                  "quiz1" (Sample.bob_in_quiz1 0) GameRoom.initial)
               None None (Sample.quiz1 (Some 1%Z)) 1%Z Sample.paris);
    try reflexivity.
  discriminate.
Defined.

(** Bob joins the empty room [quiz1] twice. *)
Lemma joinRoom_twice_witness :
  Session.memberships
    (snd (fst (GameLobby.joinRoom (Sample.signed_in Sample.bob) None "p2"
                 "quiz1"
                 (snd (fst (GameLobby.joinRoom (Sample.signed_in Sample.bob)
                              None "p1" "quiz1"
                              (Sample.store_with None []) Lobby.initial)))
                 (fst (fst (GameLobby.joinRoom (Sample.signed_in Sample.bob)
                              None "p1" "quiz1"
                              (Sample.store_with None []) Lobby.initial))))))
    "quiz1" "bob" = 1.
Proof.
  refine (proj1 (proj1 (proj1 LobbyFacts.joinRoom_twice_keeps_one_membership
                          (Sample.signed_in Sample.bob) Sample.bob "p1" "p2"
                          "quiz1" (Sample.store_with None []) Lobby.initial
                          eq_refl eq_refl _ eq_refl))).
  intros room user. vm_compute. lia.
Defined.

(** C9 as stated fails: the name is blank, and [createRoom] reports no
    error of any kind, in neither lobby. *)
Lemma createRoom_blank_name_reports_no_error :
  Js.trim (Lobby.newRoomName (Sample.lobby_with_name "   ")) = ""
  /\ reports_error
       (snd (GameLobby.createRoom (Sample.signed_in Sample.alice) None "r1"
               None "p1" (Sample.store_with None [])
               (Sample.lobby_with_name "   "))) = false
  /\ reports_error
       (snd (PriorGameLobby.createRoom (Sample.signed_in Sample.alice) None
               None None "r1" None "p1" (Sample.store_with None [])
               (Sample.lobby_with_name "   "))) = false.
Proof. repeat split. Qed.

(** Alice creates a room named with three spaces. *)
Lemma createRoom_blank_name_witness :
  GameLobby.createRoom (Sample.signed_in Sample.alice) None "r1" None "p1"
    (Sample.store_with None []) (Sample.lobby_with_name "   ")
  = (Sample.lobby_with_name "   ", Sample.store_with None [], []).
Proof.
  apply (proj1 (LobbyFacts.createRoom_blank_name_returns_silently
                  (Sample.lobby_with_name "   ") eq_refl)).
Defined.

(** The answer " Paris " to the card [paris]. *)
Lemma isCorrect_witness :
  String.length (Js.trim " Paris ") = String.length (Js.trim "Paris").
Proof.
  apply (proj1 (proj2 (proj2 (proj2 isCorrect_iff_normalized_equal)))).
  reflexivity.
Defined.

(** * Further properties of the components *)

(** ** The answer check, continued *)

Module AnswerFacts.
Import Js.

Lemma toLowerChar_idempotent (c : ascii) :
  toLowerChar (toLowerChar c) = toLowerChar c.
Proof. destruct c as [[] [] [] [] [] [] [] []]; reflexivity. Qed.

Lemma toLowerCase_idempotent (s : string) :
  toLowerCase (toLowerCase s) = toLowerCase s.
Proof.
  induction s as [|c s IH]; simpl; [reflexivity|].
  now rewrite toLowerChar_idempotent, IH.
Qed.

Lemma trim_idempotent (s : string) : trim (trim s) = trim s.
Proof.
  apply JsFacts.core_of_trim.
  destruct (JsFacts.trim_split s) as (l & r & _ & _ & _ & Hs & He).
  exists "", "". simpl.
  assert (E : forall t, (t ++ "")%string = t)
    by (induction t; simpl; congruence).
  rewrite E. auto.
Qed.

Lemma append_assoc (a b c : string) :
  ((a ++ b) ++ c = a ++ (b ++ c))%string.
Proof. induction a; simpl; congruence. Qed.

Lemma allWhiteSpace_app (a b : string) :
  allWhiteSpace (a ++ b) = allWhiteSpace a && allWhiteSpace b.
Proof.
  induction a as [|c a IH]; simpl; [reflexivity|].
  now rewrite IH, andb_assoc.
Qed.

(** White space around a string does not change what [trim] returns. *)
Lemma trim_padded (l s r : string) :
  allWhiteSpace l = true -> allWhiteSpace r = true ->
  trim (l ++ s ++ r) = trim s.
Proof.
  intros Hl Hr. apply JsFacts.core_of_trim.
  destruct (JsFacts.trim_split s) as (l' & r' & E & Hl' & Hr' & Hs & He).
  exists (l ++ l')%string, (r' ++ r)%string.
  rewrite !allWhiteSpace_app, Hl, Hr, Hl', Hr'.
  repeat split; auto.
  rewrite E at 1. now rewrite !append_assoc.
Qed.

Lemma toLowerCase_app (a b : string) :
  toLowerCase (a ++ b) = (toLowerCase a ++ toLowerCase b)%string.
Proof. induction a; simpl; congruence. Qed.

Lemma allWhiteSpace_toLowerCase (s : string) :
  allWhiteSpace (toLowerCase s) = allWhiteSpace s.
Proof.
  induction s as [|c s IH]; simpl; [reflexivity|].
  now rewrite JsFacts.isWhiteSpace_toLowerChar, IH.
Qed.

Lemma toLowerCase_empty (s : string) : toLowerCase s = "" -> s = "".
Proof. destruct s; simpl; [reflexivity | discriminate]. Qed.

End AnswerFacts.

(** X1: the answer check does not see white space around the submitted
    text nor the case of its letters: padding the submission with white
    space, trimming it or lower-casing it beforehand gives the same
    verdict; and the check is symmetric and transitive. *)
Theorem isCorrect_ignores_padding_and_case :
  (forall l r userAnswer answer,
      Js.allWhiteSpace l = true -> Js.allWhiteSpace r = true ->
      isCorrect (l ++ userAnswer ++ r) answer = isCorrect userAnswer answer)
  /\ (forall userAnswer answer,
         isCorrect (Js.trim userAnswer) answer = isCorrect userAnswer answer)
  /\ (forall userAnswer answer,
         isCorrect (Js.toLowerCase userAnswer) answer
         = isCorrect userAnswer answer)
  /\ (forall a b, isCorrect a b = isCorrect b a)
  /\ (forall a b c,
         isCorrect a b = true -> isCorrect b c = true ->
         isCorrect a c = true).
Proof.
  unfold isCorrect. repeat split.
  - intros l r u a Hl Hr.
    rewrite !AnswerFacts.toLowerCase_app, AnswerFacts.trim_padded;
      [reflexivity | |]; now rewrite AnswerFacts.allWhiteSpace_toLowerCase.
  - intros u a.
    now rewrite <- JsFacts.trim_toLowerCase, AnswerFacts.trim_idempotent.
  - intros u a. now rewrite AnswerFacts.toLowerCase_idempotent.
  - intros a b. apply String.eqb_sym.
  - intros a b c Hab Hbc. apply String.eqb_eq in Hab, Hbc.
    apply String.eqb_eq. congruence.
Qed.

(** The tab and the line feed around "Paris" are not seen. *)
Lemma isCorrect_ignores_padding_witness :
  isCorrect (String (ascii_of_N 9) " " ++ "PARIS" ++ String (ascii_of_N 10) "")
            "Paris"
  = isCorrect "PARIS" "Paris".
Proof.
  apply (proj1 isCorrect_ignores_padding_and_case); reflexivity.
Defined.

(** X2: a card whose stored answer is empty after trimming cannot be
    answered: whatever is submitted, [submitAnswer] either returns at
    once or shows the failure feedback, and writes nothing. *)
Theorem submitAnswer_blank_stored_answer_is_never_matched
        roomId user fault_update fault_insert match_id db st card :
  GameRoom.currentCard st = Some card ->
  Js.trim (Flashcards.answer card) = "" ->
  GameRoom.submitAnswer roomId user fault_update fault_insert match_id db st
  = (st, db, [])
  \/ exists st',
      GameRoom.submitAnswer roomId user fault_update fault_insert match_id
                            db st
      = (st', db, [])
      /\ option_map GameRoom.type (GameRoom.feedback st')
         = Some GameRoom.error.
Proof.
  intros Hcard Hblank. unfold GameRoom.submitAnswer. rewrite Hcard.
  destruct (negb (Js.truthy (Js.trim (GameRoom.userAnswer st)))) eqn:Hguard;
    [left; reflexivity | right].
  apply negb_false_iff, SqlFacts.truthy_trim in Hguard.
  destruct (isCorrect (GameRoom.userAnswer st) (Flashcards.answer card))
    eqn:Hok.
  - exfalso. apply Hguard.
    unfold isCorrect in Hok. apply String.eqb_eq in Hok.
    rewrite !JsFacts.trim_toLowerCase, Hblank in Hok. simpl in Hok.
    now apply AnswerFacts.toLowerCase_empty in Hok.
  - eexists. split; reflexivity.
Qed.

(** Bob answers "x" to the card with the blank answer. *)
Lemma submitAnswer_blank_stored_answer_witness :
  GameRoom.submitAnswer "quiz1" Sample.bob None None "h1"
    (Sample.bob_in_quiz1 0)
    (GameRoom.setUserAnswer "x"
       (GameRoom.setCurrentCard (Some Scenario.blank_card) GameRoom.initial))
  = (GameRoom.setUserAnswer "x"
       (GameRoom.setCurrentCard (Some Scenario.blank_card) GameRoom.initial),
     Sample.bob_in_quiz1 0, [])
  \/ exists st',
      GameRoom.submitAnswer "quiz1" Sample.bob None None "h1"
        (Sample.bob_in_quiz1 0)
        (GameRoom.setUserAnswer "x"
           (GameRoom.setCurrentCard (Some Scenario.blank_card)
                                    GameRoom.initial))
      = (st', Sample.bob_in_quiz1 0, [])
      /\ option_map GameRoom.type (GameRoom.feedback st')
         = Some GameRoom.error.
Proof.
  apply (submitAnswer_blank_stored_answer_is_never_matched
           "quiz1" Sample.bob None None "h1" (Sample.bob_in_quiz1 0)
           (GameRoom.setUserAnswer "x"
              (GameRoom.setCurrentCard (Some Scenario.blank_card)
                                       GameRoom.initial))
           Scenario.blank_card); reflexivity.
Defined.

(** ** The leaderboard *)

Module LeaderboardFacts.
Import Leaderboard.

Lemma insert_by_score_perm p l :
  Permutation (GameRoom.insert_by_score p l) (p :: l).
Proof.
  induction l as [|q l IH]; simpl; [reflexivity|].
  destruct (_ <? _)%Z; [reflexivity|].
  rewrite IH. apply perm_swap.
Qed.

Lemma order_by_score_desc_perm l :
  Permutation (GameRoom.order_by_score_desc l) l.
Proof.
  induction l as [|p l IH]; simpl; [reflexivity|].
  rewrite insert_by_score_perm. now constructor.
Qed.

Lemma insert_by_score_sorted p l :
  StronglySorted not_below l ->
  StronglySorted not_below (GameRoom.insert_by_score p l).
Proof.
  induction l as [|q l IH]; simpl; intros Hs.
  - constructor; constructor.
  - apply StronglySorted_inv in Hs. destruct Hs as [Hl Hq].
    destruct (Z.ltb_spec (GameRoom.Player.score q) (GameRoom.Player.score p))
      as [Hlt|Hge].
    + constructor; [constructor; assumption|].
      constructor; [unfold not_below; lia|].
      eapply Forall_impl; [|exact Hq]. unfold not_below. intros; lia.
    + constructor; [auto|].
      apply (Permutation_Forall (Permutation_sym (insert_by_score_perm p l))).
      constructor; [unfold not_below; lia | exact Hq].
Qed.

Lemma order_by_score_desc_sorted l :
  StronglySorted not_below (GameRoom.order_by_score_desc l).
Proof.
  induction l as [|p l IH]; simpl; [constructor|].
  now apply insert_by_score_sorted.
Qed.

Lemma fetchPlayers_ok roomId db st :
  GameRoom.fetchPlayers roomId None db st
  = GameRoom.setPlayers
      (GameRoom.order_by_score_desc
         (map (player_of db) (members_of db roomId))) st.
Proof. reflexivity. Qed.

(** X3: when the store answers, [fetchPlayers] replaces the players of
    the component by the membership rows of the room, all of them and no
    other, ordered by descending score, and touches no other field of
    the state; when the store answers with an error the component keeps
    the players it had. *)
Theorem fetchPlayers_lists_the_room_by_descending_score roomId db st :
  Permutation (GameRoom.players (GameRoom.fetchPlayers roomId None db st))
              (map (player_of db) (members_of db roomId))
  /\ StronglySorted not_below
       (GameRoom.players (GameRoom.fetchPlayers roomId None db st))
  /\ List.length (GameRoom.players (GameRoom.fetchPlayers roomId None db st))
     = List.length (members_of db roomId)
  /\ GameRoom.fetchPlayers roomId None db st
     = GameRoom.setPlayers
         (GameRoom.players (GameRoom.fetchPlayers roomId None db st)) st
  /\ (forall e, GameRoom.fetchPlayers roomId (Some e) db st = st).
Proof.
  rewrite fetchPlayers_ok. simpl.
  pose proof (order_by_score_desc_perm
                (map (player_of db) (members_of db roomId))) as Hperm.
  repeat split.
  - exact Hperm.
  - apply order_by_score_desc_sorted.
  - rewrite (Permutation_length Hperm). apply length_map.
Qed.

Lemma unique_row {A : Type} (key : A -> bool) (l : list A) a b :
  List.length (filter key l) <= 1 ->
  In a l -> key a = true -> In b l -> key b = true -> a = b.
Proof.
  intros Hlen Ha Hka Hb Hkb.
  assert (Ia : In a (filter key l)) by (apply filter_In; auto).
  assert (Ib : In b (filter key l)) by (apply filter_In; auto).
  destruct (filter key l) as [|x [|y t]]; simpl in *; try lia;
    intuition congruence.
Qed.

(** After [fetchPlayers] the cached score of an account with one
    membership row in the room is its stored score. *)
Lemma cachedScore_after_fetchPlayers roomId user db st s :
  Session.unique_members db ->
  Session.score_of db roomId (Auth.id user) = Some s ->
  GameRoom.cachedScore user (GameRoom.fetchPlayers roomId None db st) = s.
Proof.
  intros Huniq Hs. unfold Session.score_of in Hs.
  destruct (find (Sql.is_member roomId (Auth.id user)) (game_players db))
    as [p|] eqn:Hp; [|discriminate].
  injection Hs as <-. apply find_some in Hp. destruct Hp as [Hin Hmem].
  pose proof Hmem as Hmem'. unfold Sql.is_member in Hmem'.
  apply andb_true_iff in Hmem'. destruct Hmem' as [Hroom Huser].
  rewrite fetchPlayers_ok. unfold GameRoom.cachedScore. simpl.
  set (L := GameRoom.order_by_score_desc _).
  assert (HL : forall q, In q L <->
                         In q (map (player_of db) (members_of db roomId))).
  { intros q. split; apply Permutation_in;
      [|apply Permutation_sym]; apply order_by_score_desc_perm. }
  destruct (find _ L) as [q|] eqn:Hq.
  - apply find_some in Hq. destruct Hq as [HqL Hkey].
    apply HL, in_map_iff in HqL. destruct HqL as (p' & <- & Hp').
    apply filter_In in Hp'. destruct Hp' as [Hin' Hroom'].
    simpl in Hkey.
    assert (p' = p) as ->.
    { apply (unique_row (Sql.is_member roomId (Auth.id user))
                        (game_players db)); auto.
      - apply (Huniq roomId (Auth.id user)).
      - unfold Sql.is_member. now rewrite Hroom', Hkey. }
    simpl. unfold GameRoom.or_zero.
    destruct (Z.eqb_spec (GamePlayers.score p) 0); congruence.
  - exfalso.
    assert (Hnone : (GameRoom.Player.user_id (player_of db p)
                     =? Auth.id user) = false).
    { apply (find_none _ _ Hq). apply HL, in_map. apply filter_In. auto. }
    simpl in Hnone. congruence.
Qed.

Lemma submitAnswer_accepted roomId user fault_insert match_id db st card :
  GameRoom.currentCard st = Some card ->
  Js.trim (GameRoom.userAnswer st) <> "" ->
  isCorrect (GameRoom.userAnswer st) (Flashcards.answer card) = true ->
  Sql.int4 (GameRoom.newScore user st) = true ->
  game_players
    (snd (fst (GameRoom.submitAnswer roomId user None fault_insert match_id
                 db st)))
  = map (fun p => if Sql.is_member roomId (Auth.id user) p
                  then Sql.set_score (GameRoom.newScore user st) p else p)
        (game_players db).
Proof.
  intros Hcard Htrim Hok Hrange. apply SqlFacts.truthy_trim in Htrim.
  unfold GameRoom.submitAnswer. rewrite Hcard, Htrim, Hok. simpl.
  unfold Sql.update_score. rewrite Hrange, andb_false_r. simpl.
  now rewrite SqlFacts.insert_match_history_players.
Qed.

(** X4: an answer given from a component that has fetched the players
    raises the stored score by exactly one: with one membership row of
    the account in the room at the score [s], a correct answer whose
    update the store executes leaves the stored score at [s + 1]. *)
Theorem submitAnswer_after_fetchPlayers_adds_one
        roomId user fault_insert match_id db st card s :
  Session.unique_members db ->
  Session.score_of db roomId (Auth.id user) = Some s ->
  Sql.int4 (s + 1) = true ->
  GameRoom.currentCard st = Some card ->
  Js.trim (GameRoom.userAnswer st) <> "" ->
  isCorrect (GameRoom.userAnswer st) (Flashcards.answer card) = true ->
  Session.score_of
    (snd (fst (GameRoom.submitAnswer roomId user None fault_insert match_id db
                 (GameRoom.fetchPlayers roomId None db st))))
    roomId (Auth.id user)
  = Some (s + 1)%Z.
Proof.
  intros Huniq Hs Hrange Hcard Htrim Hok.
  pose proof (cachedScore_after_fetchPlayers roomId user db st s Huniq Hs)
    as Hcache.
  set (st1 := GameRoom.fetchPlayers roomId None db st) in *.
  assert (Hnew : GameRoom.newScore user st1 = (s + 1)%Z)
    by (unfold GameRoom.newScore; now rewrite Hcache).
  unfold Session.score_of.
  rewrite (submitAnswer_accepted roomId user fault_insert match_id db st1 card);
    try assumption; [|now rewrite Hnew].
  rewrite SessionFacts.find_map_same_key
    by (intros p; destruct (Sql.is_member roomId (Auth.id user) p) eqn:E;
        exact E).
  unfold Session.score_of in Hs.
  destruct (find _ (game_players db)) as [p|] eqn:Hp; [|discriminate].
  apply find_some in Hp. destruct Hp as [_ Hmem].
  simpl. rewrite Hmem, Hnew. reflexivity.
Qed.

End LeaderboardFacts.

(** The sample store satisfies [UNIQUE(room_id, user_id)]. *)
Lemma bob_in_quiz1_unique_members score :
  Session.unique_members (Sample.bob_in_quiz1 score).
Proof.
  intros room user.
  unfold Session.memberships, Sql.is_member, Sample.bob_in_quiz1,
    Sample.store_with, Sample.member.
  cbn [game_players filter GamePlayers.room_id GamePlayers.user_id].
  destruct (String.eqb_spec "quiz1" room);
    destruct (String.eqb_spec "alice" user);
    destruct (String.eqb_spec "bob" user);
    cbn [andb List.length]; try lia.
  congruence.
Qed.

(** Bob, stored at 3, fetches the players and answers "paris". *)
Lemma submitAnswer_after_fetchPlayers_witness :
  Session.score_of
    (snd (fst (GameRoom.submitAnswer "quiz1" Sample.bob None None "h1"
                 (Sample.bob_in_quiz1 3)
                 (GameRoom.fetchPlayers "quiz1" None (Sample.bob_in_quiz1 3)
                    (Sample.bob_answers "paris")))))
    "quiz1" "bob"
  = Some 4%Z.
Proof.
  apply (LeaderboardFacts.submitAnswer_after_fetchPlayers_adds_one
           "quiz1" Sample.bob None "h1" (Sample.bob_in_quiz1 3)
           (Sample.bob_answers "paris") Sample.paris 3);
    try reflexivity.
  - apply bob_in_quiz1_unique_members.
  - vm_compute. discriminate.
Defined.

(** ** What [submitAnswer] leaves alone *)

Module SubmitFacts.

Lemma insert_match_history_cases fault new_id room card winner db :
  let db' := fst (Sql.insert_match_history fault new_id room card winner db) in
  users db' = users db /\ flashcards db' = flashcards db
  /\ game_rooms db' = game_rooms db /\ game_players db' = game_players db
  /\ (match_history db' = match_history db
      \/ match_history db' =
         (match_history db ++
            [{| MatchHistory.id := new_id; MatchHistory.room_id := room;
                MatchHistory.card_id := card;
                MatchHistory.winner_id := Some winner |}])%list).
Proof.
  unfold Sql.insert_match_history. destruct fault; simpl; [auto 6|].
  destruct (negb _ || negb _); simpl; auto 6.
Qed.

Lemma update_score_cases fault room user newScore db :
  let db' := fst (Sql.update_score fault room user newScore db) in
  users db' = users db /\ flashcards db' = flashcards db
  /\ game_rooms db' = game_rooms db /\ match_history db' = match_history db
  /\ (game_players db' = game_players db
      \/ game_players db' =
         map (fun p => if Sql.is_member room user p
                       then Sql.set_score newScore p else p)
             (game_players db)).
Proof.
  unfold Sql.update_score. destruct fault; simpl; [auto 6|].
  destruct (existsb _ _ && _); simpl; auto 6.
Qed.

Lemma score_of_others room user newScore l room' user' :
  room' <> room \/ user' <> user ->
  option_map GamePlayers.score
    (find (Sql.is_member room' user')
          (map (fun p => if Sql.is_member room user p
                         then Sql.set_score newScore p else p) l))
  = option_map GamePlayers.score (find (Sql.is_member room' user') l).
Proof.
  intros Hother.
  rewrite SessionFacts.find_map_same_key
    by (intros p; now destruct (Sql.is_member room user p)).
  destruct (find _ l) as [p|] eqn:Hp; [|reflexivity]. simpl.
  destruct (Sql.is_member room user p) eqn:Hmem; [|reflexivity].
  apply find_some in Hp. destruct Hp as [_ Hmem'].
  destruct (ScoreFacts.is_member_key _ _ _ _ _ Hmem Hmem') as [-> ->].
  intuition congruence.
Qed.

(** X5: whatever the answer and whatever the store replies,
    [submitAnswer] leaves the accounts, the flashcards and the rooms as
    they are (it never moves the room to another card itself), inserts or
    deletes no membership, changes no score but the submitter's in this
    room, and only ever appends to the match history: at most one record,
    for this room, the card the component shows and the submitter as
    winner. *)
Theorem submitAnswer_writes_only_for_the_submitter
        roomId user fault_update fault_insert match_id db st :
  let db' :=
    snd (fst (GameRoom.submitAnswer roomId user fault_update fault_insert
                match_id db st)) in
  users db' = users db /\ flashcards db' = flashcards db
  /\ game_rooms db' = game_rooms db
  /\ List.length (game_players db') = List.length (game_players db)
  /\ (forall room' user',
         room' <> roomId \/ user' <> Auth.id user ->
         Session.score_of db' room' user' = Session.score_of db room' user')
  /\ exists extra,
      match_history db' = (match_history db ++ extra)%list
      /\ List.length extra <= 1
      /\ forall m, In m extra ->
                   MatchHistory.room_id m = roomId
                   /\ MatchHistory.winner_id m = Some (Auth.id user)
                   /\ option_map Flashcards.id (GameRoom.currentCard st)
                      = Some (MatchHistory.card_id m).
Proof.
  intros db'. subst db'.
  assert (Hsame : users db = users db /\ flashcards db = flashcards db
                  /\ game_rooms db = game_rooms db
                  /\ List.length (game_players db)
                     = List.length (game_players db)
                  /\ (forall room' user',
                         room' <> roomId \/ user' <> Auth.id user ->
                         Session.score_of db room' user'
                         = Session.score_of db room' user')
                  /\ exists extra,
                      match_history db = (match_history db ++ extra)%list
                      /\ List.length extra <= 1
                      /\ forall m, In m extra ->
                           MatchHistory.room_id m = roomId
                           /\ MatchHistory.winner_id m = Some (Auth.id user)
                           /\ option_map Flashcards.id (GameRoom.currentCard st)
                              = Some (MatchHistory.card_id m)).
  { repeat split; auto. exists []. rewrite app_nil_r.
    repeat split; simpl; auto; contradiction. }
  unfold GameRoom.submitAnswer.
  destruct (GameRoom.currentCard st) as [card|] eqn:Hcard; [|exact Hsame].
  destruct (negb _); [exact Hsame|].
  destruct (isCorrect _ _); [|exact Hsame].
  destruct (update_score_cases fault_update roomId (Auth.id user)
              (GameRoom.newScore user st) db)
    as (Hu & Hf & Hr & Hh & Hp).
  destruct (Sql.update_score _ _ _ _ _) as [db1 r]. simpl in Hu, Hf, Hr, Hh, Hp.
  assert (Hlen : List.length (game_players db1)
                 = List.length (game_players db))
    by (destruct Hp as [-> | ->]; [reflexivity | apply length_map]).
  assert (Hothers : forall room' user',
             room' <> roomId \/ user' <> Auth.id user ->
             Session.score_of db1 room' user'
             = Session.score_of db room' user').
  { intros room' user' Hother. unfold Session.score_of.
    destruct Hp as [-> | ->]; [reflexivity|].
    now apply score_of_others. }
  destruct (Postgrest.error r); simpl.
  - repeat split; auto. exists []. rewrite app_nil_r.
    repeat split; simpl; auto; contradiction.
  - destruct (insert_match_history_cases fault_insert match_id roomId
                (Flashcards.id card) (Auth.id user) db1)
      as (Hu2 & Hf2 & Hr2 & Hp2 & Hh2).
    simpl in *. rewrite Hu2, Hf2, Hr2, Hp2.
    repeat split; try congruence.
    + intros room' user' Hother. unfold Session.score_of. rewrite Hp2.
      now apply Hothers.
    + destruct Hh2 as [-> | ->]; rewrite Hh.
      * exists []. rewrite app_nil_r.
        repeat split; simpl; auto; contradiction.
      * eexists. split; [reflexivity|]. split; [simpl; lia|].
        intros m [<- | []]. simpl. auto.
Qed.

Lemma map_unchanged {A : Type} (key : A -> bool) (f : A -> A) (l : list A) :
  filter key l = [] -> map (fun a => if key a then f a else a) l = l.
Proof.
  induction l as [|a l IH]; simpl; [reflexivity|].
  destruct (key a); [discriminate|]. intros H. now rewrite IH.
Qed.

(** X6: an account without a membership row in the room that answers
    correctly is told it earned a point and is recorded as the winner of
    the card, while no score is written anywhere: the update matches no
    row, which the store does not report as an error. *)
Theorem submitAnswer_correct_without_membership
        roomId user match_id db st card :
  GameRoom.currentCard st = Some card ->
  Js.trim (GameRoom.userAnswer st) <> "" ->
  isCorrect (GameRoom.userAnswer st) (Flashcards.answer card) = true ->
  Session.memberships db roomId (Auth.id user) = 0 ->
  Sql.room_exists db roomId = true ->
  Sql.card_exists db (Flashcards.id card) = true ->
  let r := GameRoom.submitAnswer roomId user None None match_id db st in
  game_players (snd (fst r)) = game_players db
  /\ match_history (snd (fst r)) =
       (match_history db ++
          [{| MatchHistory.id := match_id; MatchHistory.room_id := roomId;
              MatchHistory.card_id := Flashcards.id card;
              MatchHistory.winner_id := Some (Auth.id user) |}])%list
  /\ GameRoom.feedback (fst (fst r)) =
       Some {| GameRoom.message := "Correct! You earned a point!";
               GameRoom.type := GameRoom.success |}.
Proof.
  intros Hcard Htrim Hok Hnone Hroom Hcardx r. subst r.
  apply SqlFacts.truthy_trim in Htrim.
  unfold Session.memberships in Hnone. apply length_zero_iff_nil in Hnone.
  assert (Hex : existsb (Sql.is_member roomId (Auth.id user))
                        (game_players db) = false).
  { destruct (existsb _ _) eqn:E; [|reflexivity].
    apply LobbyFacts.existsb_filter_length in E. rewrite Hnone in E.
    simpl in E. lia. }
  unfold GameRoom.submitAnswer. rewrite Hcard, Htrim, Hok. simpl.
  unfold Sql.update_score. rewrite Hex. simpl.
  unfold Sql.insert_match_history, Sql.room_exists, Sql.card_exists in *.
  simpl. rewrite Hroom, Hcardx. simpl.
  rewrite (map_unchanged _ _ _ Hnone). auto.
Qed.

End SubmitFacts.

(** Alice's score is not touched by bob's answer. *)
Lemma submitAnswer_writes_only_for_the_submitter_witness :
  Session.score_of
    (snd (fst (GameRoom.submitAnswer "quiz1" Sample.bob None None "h1"
                 (Sample.bob_in_quiz1 3) (Sample.bob_answers "paris"))))
    "quiz1" "alice"
  = Session.score_of (Sample.bob_in_quiz1 3) "quiz1" "alice".
Proof.
  apply (proj1 (proj2 (proj2 (proj2 (proj2
           (SubmitFacts.submitAnswer_writes_only_for_the_submitter
              "quiz1" Sample.bob None None "h1" (Sample.bob_in_quiz1 3)
              (Sample.bob_answers "paris"))))))).
  right. discriminate.
Defined.

(** Bob answers in [quiz1] without being a member of it. *)
Lemma submitAnswer_correct_without_membership_witness :
  game_players
    (snd (fst (GameRoom.submitAnswer "quiz1" Sample.bob None None "h1"
                 (Sample.store_with (Some 1%Z) [])
                 (Sample.bob_answers "paris"))))
  = [].
Proof.
  refine (proj1 (SubmitFacts.submitAnswer_correct_without_membership
                   "quiz1" Sample.bob "h1" (Sample.store_with (Some 1%Z) [])
                   (Sample.bob_answers "paris") Sample.paris
                   eq_refl _ eq_refl eq_refl eq_refl eq_refl)).
  vm_compute. discriminate.
Defined.

(** ** The other handlers of the room *)

Module RoomFacts.

(** X7: the three refreshers of the component are idempotent against
    the same replies of the store and commute with one another: a
    notification handled twice, or two notifications handled in the
    other order, leave the same state. *)
Theorem refreshers_are_idempotent_and_commute
        roomId user fault_players fault_room fault_card fault_host db st :
  let players := GameRoom.fetchPlayers roomId fault_players db in
  let card := GameRoom.fetchCurrentCard roomId fault_room fault_card db in
  let host := GameRoom.checkIfHost roomId user fault_host db in
  players (players st) = players st
  /\ card (card st) = card st
  /\ host (host st) = host st
  /\ players (card st) = card (players st)
  /\ players (host st) = host (players st)
  /\ card (host st) = host (card st).
Proof.
  unfold GameRoom.fetchPlayers, GameRoom.fetchCurrentCard,
    GameRoom.checkIfHost.
  destruct (Postgrest.error (GameRoom.select_players fault_players roomId db));
    destruct (data (GameRoom.select_players fault_players roomId db));
    destruct (option_map GameRooms.current_card_id
                (data (Sql.select_room fault_room roomId db)))
      as [[c|]|];
    try destruct (c =? 0)%Z;
    try destruct (data (Sql.select_flashcard fault_card c db));
    destruct (data (Sql.select_room fault_host roomId db));
    repeat split.
Qed.

Lemma filter_negb_other {A : Type} (key key' : A -> bool) (l : list A) :
  (forall a, key' a = true -> key a = false) ->
  find key' (filter (fun a => negb (key a)) l) = find key' l.
Proof.
  intros H. induction l as [|a l IH]; simpl; [reflexivity|].
  destruct (key' a) eqn:Ha'.
  - rewrite (H a Ha'). simpl. now rewrite Ha'.
  - destruct (key a); simpl; [exact IH|]. now rewrite Ha'.
Qed.

(** X8: [leaveRoom] deletes the membership of the caller in this room
    and nothing else: afterwards the caller has no row in the room, every
    other membership is still there with its score, and the other tables
    are untouched.  [onLeave] is called in every case: when the store
    answers the delete with an error, the component goes back to the
    lobby although the membership is still stored. *)
Theorem leaveRoom_deletes_only_the_callers_membership roomId user db :
  (let r := GameRoom.leaveRoom roomId user None db in
   Session.memberships (fst r) roomId (Auth.id user) = 0
   /\ (forall p, In p (game_players (fst r)) <->
                 In p (game_players db)
                 /\ Sql.is_member roomId (Auth.id user) p = false)
   /\ (forall room' user',
          room' <> roomId \/ user' <> Auth.id user ->
          Session.score_of (fst r) room' user'
          = Session.score_of db room' user')
   /\ users (fst r) = users db /\ flashcards (fst r) = flashcards db
   /\ game_rooms (fst r) = game_rooms db
   /\ match_history (fst r) = match_history db
   /\ snd r = [onLeave])
  /\ (forall e, GameRoom.leaveRoom roomId user (Some e) db = (db, [onLeave])).
Proof.
  split; [|reflexivity]. cbn zeta.
  unfold GameRoom.leaveRoom, Sql.delete_game_player. cbn [fst snd].
  split.
  { unfold Session.memberships. simpl.
    induction (game_players db) as [|p l IH]; simpl; [reflexivity|].
    destruct (Sql.is_member roomId (Auth.id user) p) eqn:E; simpl;
      [exact IH|]. now rewrite E. }
  split.
  { intros p. simpl. rewrite filter_In, negb_true_iff. tauto. }
  split; [|repeat split].
  intros room' user' Hother. unfold Session.score_of. simpl.
  rewrite filter_negb_other; [reflexivity|].
  intros p Hp. destruct (Sql.is_member roomId (Auth.id user) p) eqn:E;
    [|reflexivity].
  destruct (ScoreFacts.is_member_key _ _ _ _ _ E Hp) as [E1 E2].
  exfalso. destruct Hother as [H|H]; apply H; congruence.
Qed.




(** X10: [checkIfHost] sets [isHost] and nothing else; it sets it to
    true exactly when the store answers and holds one room with this id,
    hosted by the account.  When the lookup fails the flag is false, for
    the host as well, and [startNewRound] then returns at once. *)
Theorem checkIfHost_decides_the_host roomId user fault db st :
  GameRoom.checkIfHost roomId user fault db st
  = GameRoom.setIsHost
      (GameRoom.isHost (GameRoom.checkIfHost roomId user fault db st)) st
  /\ (GameRoom.isHost (GameRoom.checkIfHost roomId user fault db st) = true
      <-> fault = None
          /\ exists row,
              filter (fun r => GameRooms.id r =? roomId) (game_rooms db)
              = [row]
              /\ GameRooms.host_id row = Auth.id user)
  /\ (forall e pick fault_cards fault_update,
         fault = Some e ->
         GameRoom.startNewRound roomId pick fault_cards fault_update db
           (GameRoom.checkIfHost roomId user fault db st)
         = (GameRoom.checkIfHost roomId user fault db st, db, [])).
Proof.
  unfold GameRoom.checkIfHost, Sql.select_room.
  destruct fault as [e|]; simpl.
  - split; [reflexivity|]. split; [|reflexivity].
    split; [discriminate | intros [H _]; discriminate].
  - destruct (filter _ (game_rooms db)) as [|row [|row' rows]]; simpl;
      (split; [reflexivity|]); (split; [|discriminate]).
    + split; [discriminate | intros (_ & row & H & _); discriminate].
    + rewrite String.eqb_eq. split.
      * intros H. split; [reflexivity|]. now exists row.
      * intros (_ & row0 & [= <-] & H). exact H.
    + split; [discriminate | intros (_ & row0 & H & _); discriminate].
Qed.

End RoomFacts.

(** Bob leaves [quiz1]; alice stays at her score. *)
Lemma leaveRoom_witness :
  Session.score_of
    (fst (GameRoom.leaveRoom "quiz1" Sample.bob None (Sample.bob_in_quiz1 3)))
    "quiz1" "alice"
  = Session.score_of (Sample.bob_in_quiz1 3) "quiz1" "alice".
Proof.
  apply (proj1 (proj2 (proj2 (proj1
           (RoomFacts.leaveRoom_deletes_only_the_callers_membership
              "quiz1" Sample.bob (Sample.bob_in_quiz1 3)))))).
  right. discriminate.
Defined.


(** Alice's lookup of the host fails. *)
Lemma checkIfHost_witness :
  GameRoom.startNewRound "quiz1" 0 None None (Sample.store_with None [])
    (GameRoom.checkIfHost "quiz1" Sample.alice
       (Some Sample.unreachable_store) (Sample.store_with None [])
       GameRoom.initial)
  = (GameRoom.checkIfHost "quiz1" Sample.alice
       (Some Sample.unreachable_store) (Sample.store_with None [])
       GameRoom.initial,
     Sample.store_with None [], []).
Proof.
  apply (proj2 (proj2 (RoomFacts.checkIfHost_decides_the_host
                         "quiz1" Sample.alice (Some Sample.unreachable_store)
                         (Sample.store_with None []) GameRoom.initial))
               Sample.unreachable_store 0 None None eq_refl).
Defined.

(** ** The other paths of the lobby *)

Module CreateFacts.
Import Lobby.

Lemma memberships_zero_existsb db room user :
  Session.memberships db room user = 0 ->
  existsb (Sql.is_member room user) (game_players db) = false.
Proof.
  unfold Session.memberships. intros H.
  destruct (existsb _ _) eqn:E; [|reflexivity].
  apply LobbyFacts.existsb_filter_length in E. lia.
Qed.

Lemma room_exists_after_insert db new_id name host :
  Sql.room_exists
    (Sql.with_game_rooms db
       (game_rooms db ++
          [{| GameRooms.id := new_id; GameRooms.name := name;
              GameRooms.host_id := host; GameRooms.is_active := true;
              GameRooms.current_card_id := None |}]))
    new_id = true.
Proof.
  unfold Sql.room_exists. simpl. rewrite existsb_app. simpl.
  now rewrite String.eqb_refl, orb_true_r.
Qed.

(** The row [createRoom] inserts into [game_rooms]. *)
Lemma insert_game_room_ok new_id name host db :
  Sql.insert_game_room None new_id name host db
  = (Sql.with_game_rooms db
       (game_rooms db ++
          [{| GameRooms.id := new_id; GameRooms.name := name;
              GameRooms.host_id := host; GameRooms.is_active := true;
              GameRooms.current_card_id := None |}]),
     ok [{| GameRooms.id := new_id; GameRooms.name := name;
            GameRooms.host_id := host; GameRooms.is_active := true;
            GameRooms.current_card_id := None |}]).
Proof. reflexivity. Qed.

(** X11: [createRoom] of [src/components/GameLobby.tsx], with the
    account signed in, a name that is not blank, a fresh room id and both
    inserts executed: the room is appended with the name as typed (not
    trimmed), the account as host, active and without a card; then the
    membership of the host is appended with score 0; the lobby enters
    the room, clears the name field and the loading flag and shows the
    success toast. *)
Theorem createRoom_creates_the_room_and_joins_the_host
        auth user room_id player_id db st :
  Auth.user auth = Some user ->
  Js.trim (newRoomName st) <> "" ->
  Session.memberships db room_id (Auth.id user) = 0 ->
  exists db',
    GameLobby.createRoom auth None room_id None player_id db st
    = (setLoading false
         (setNewRoomName "" (setActiveRoom (Some room_id) st)),
       db',
       [toast "Success!"
              ("Room " ++ Js.dquote ++ newRoomName st ++ Js.dquote
               ++ " created and joined.")
              default])
    /\ game_rooms db' =
         (game_rooms db ++
            [{| GameRooms.id := room_id; GameRooms.name := newRoomName st;
                GameRooms.host_id := Auth.id user;
                GameRooms.is_active := true;
                GameRooms.current_card_id := None |}])%list
    /\ game_players db' =
         (game_players db ++
            [{| GamePlayers.id := player_id; GamePlayers.room_id := room_id;
                GamePlayers.user_id := Auth.id user;
                GamePlayers.score := 0 |}])%list
    /\ users db' = users db /\ flashcards db' = flashcards db
    /\ match_history db' = match_history db.
Proof.
  intros Huser Hname Hfresh. apply SqlFacts.truthy_trim in Hname.
  apply memberships_zero_existsb in Hfresh.
  unfold GameLobby.createRoom. rewrite Hname, Huser. cbn [negb].
  rewrite insert_game_room_ok. cbn [single_row Postgrest.error data ok single].
  unfold Sql.insert_game_player. cbn [GameRooms.id].
  cbn [game_players Sql.with_game_rooms]. rewrite Hfresh.
  rewrite (room_exists_after_insert db room_id (newRoomName st)
             (Auth.id user)).
  cbn [negb Postgrest.error ok].
  eexists. split; [reflexivity|]. simpl. auto 6.
Qed.

(** The step of the earlier [createRoom] that looks the profile up and
    inserts it when there is none. *)
Lemma profile_step fp fn user db :
  let step :=
    match data (Sql.select_user fp (Auth.id user) db) with
    | Some _ => (db, @nil Effect)
    | None =>
        let '(db', rp) :=
          Sql.insert_user fn (PriorGameLobby.profile_of user) db in
        (db',
         match Postgrest.error rp with
         | Some profileError =>
             [console_error "Error creating user profile:"
                            (Postgrest.message profileError)]
         | None => []
         end)
    end in
  game_rooms (fst step) = game_rooms db
  /\ game_players (fst step) = game_players db
  /\ flashcards (fst step) = flashcards db
  /\ match_history (fst step) = match_history db
  /\ (users (fst step) = users db
      \/ users (fst step)
         = (users db ++ [PriorGameLobby.profile_of user])%list)
  /\ filter user_visible (snd step) = [].
Proof.
  destruct (data (Sql.select_user fp (Auth.id user) db)); simpl;
    [repeat split; auto|].
  unfold Sql.insert_user. destruct fn; simpl; [repeat split; auto|].
  destruct (existsb _ (users db)); simpl; repeat split; auto.
Qed.


End CreateFacts.

(** Alice creates the room "Maths" in a store without rooms of hers. *)
Lemma createRoom_creates_the_room_witness :
  exists db',
    GameLobby.createRoom (Sample.signed_in Sample.alice) None "maths" None
      "p-host" (Sample.store_with None []) (Sample.lobby_with_name "Maths")
    = (Lobby.setLoading false
         (Lobby.setNewRoomName ""
            (Lobby.setActiveRoom (Some "maths")
                                 (Sample.lobby_with_name "Maths"))),
       db',
       [toast "Success!"
              ("Room " ++ Js.dquote ++ "Maths" ++ Js.dquote
               ++ " created and joined.")
              default])
    /\ game_rooms db' =
         [Sample.quiz1 None;
          {| GameRooms.id := "maths"; GameRooms.name := "Maths";
             GameRooms.host_id := "alice"; GameRooms.is_active := true;
             GameRooms.current_card_id := None |}]
    /\ game_players db' =
         [{| GamePlayers.id := "p-host"; GamePlayers.room_id := "maths";
             GamePlayers.user_id := "alice"; GamePlayers.score := 0 |}]
    /\ users db' = [] /\ flashcards db' = [Sample.paris; Sample.four]
    /\ match_history db' = [].
Proof.
  apply (CreateFacts.createRoom_creates_the_room_and_joins_the_host
           (Sample.signed_in Sample.alice) Sample.alice "maths" "p-host"
           (Sample.store_with None []) (Sample.lobby_with_name "Maths"));
    try reflexivity.
  vm_compute. discriminate.
Defined.


Module LobbyPaths.
Import Lobby.

(** X13: when the room is inserted and the membership of the host is
    refused, [createRoom] of [src/components/GameLobby.tsx] shows the
    error, leaves the lobby open with the name still in the field, and
    the next [fetchRooms] lists the new room with [player_count] 0.  The
    earlier [createRoom] shows the error and enters the room all the
    same, with a host that has no membership row. *)
Theorem createRoom_with_refused_join
        auth user e fault_profile fault_new_profile room_id player_id db st :
  Auth.user auth = Some user ->
  Auth.error auth = None ->
  Js.trim (newRoomName st) <> "" ->
  (forall p, In p (game_players db) -> GamePlayers.room_id p <> room_id) ->
  let r := GameLobby.createRoom auth None room_id (Some e) player_id db st in
  let q := PriorGameLobby.createRoom auth fault_profile fault_new_profile
             None room_id (Some e) player_id db st in
  fst (fst r) = setLoading false st
  /\ In (toast "Error"
               ("Created room but failed to join: " ++ Postgrest.message e)
               destructive) (snd r)
  /\ In {| Lobby.id := room_id; Lobby.name := newRoomName st;
           Lobby.host_id := Auth.id user; Lobby.is_active := true;
           Lobby.player_count := 0 |}
        (rooms (fst (GameLobby.fetchRooms None (snd (fst r)) (fst (fst r)))))
  /\ activeRoom (fst (fst q)) = Some room_id
  /\ Session.memberships (snd (fst q)) room_id (Auth.id user) = 0
  /\ In (alert ("Created room but failed to join: " ++ Postgrest.message e))
        (snd q).
Proof.
  intros Huser Hnoerr Hname Hfresh r q. subst r q.
  apply SqlFacts.truthy_trim in Hname.
  split; [|split; [|split]].
  - unfold GameLobby.createRoom. rewrite Hname, Huser. reflexivity.
  - unfold GameLobby.createRoom. rewrite Hname, Huser. simpl. auto.
  - set (row := {| GameRooms.id := room_id; GameRooms.name := newRoomName st;
                   GameRooms.host_id := Auth.id user;
                   GameRooms.is_active := true;
                   GameRooms.current_card_id := None |}).
    assert (E : snd (fst (GameLobby.createRoom auth None room_id (Some e)
                            player_id db st))
                = Sql.with_game_rooms db (game_rooms db ++ [row])).
    { unfold GameLobby.createRoom. rewrite Hname, Huser. reflexivity. }
    rewrite E.
    apply (proj2 (proj2 (LobbyFacts.GameLobby_fetchRooms_lists_every_active_room
                           (Sql.with_game_rooms db (game_rooms db ++ [row]))
                           _)) row).
    + simpl. apply in_or_app. right. now left.
    + reflexivity.
    + exact Hfresh.
  - unfold PriorGameLobby.createRoom. rewrite Hname, Huser, Hnoerr. cbn [negb].
    destruct (CreateFacts.profile_step fault_profile fault_new_profile user db)
      as (_ & Hp & _).
    destruct (match data (Sql.select_user fault_profile (Auth.id user) db)
              with Some _ => _ | None => _ end) as [db0 log0].
    cbn [fst snd] in Hp. simpl.
    split; [reflexivity|]. split.
    + unfold Session.memberships. simpl. rewrite Hp.
      apply length_zero_iff_nil. apply LobbyFacts.filter_nil_existsb.
      destruct (existsb _ _) eqn:Hex; [|reflexivity].
      apply existsb_exists in Hex. destruct Hex as (p & Hin & Hmem).
      unfold Sql.is_member in Hmem. apply andb_true_iff in Hmem.
      destruct Hmem as [Hroom _]. apply String.eqb_eq in Hroom.
      now destruct (Hfresh p Hin).
    + apply in_or_app. right. simpl. auto.
Qed.


Lemma split_at_0_truthy_or_else (a : option string) (b : string) :
  Js.truthy b = true -> Js.truthy (Js.or_else a b) = true.
Proof.
  intros Hb. unfold Js.or_else. destruct a as [v|]; [|exact Hb].
  destruct (Js.truthy v) eqn:Hv; assumption.
Qed.

(** X15: the profile row the earlier [createRoom] inserts for an
    account never has an empty user name: it is the user name of the
    metadata when that is not empty; else what comes before the first @
    of the email when that is not empty; else, without an email or with
    nothing before its first @, "Player".  Its id is the account's and
    its email is the account's email, or the empty string when the
    account has none. *)
Theorem profile_of_has_a_user_name (user : Auth.User) :
  Users.username (PriorGameLobby.profile_of user) <> ""
  /\ Users.id (PriorGameLobby.profile_of user) = Auth.id user
  /\ (forall name,
         Auth.username user = Some name -> name <> "" ->
         Users.username (PriorGameLobby.profile_of user) = name)
  /\ (Auth.username user = None \/ Auth.username user = Some "" ->
      forall email,
        Auth.email user = Some email -> Js.split_at_0 email <> "" ->
        Users.username (PriorGameLobby.profile_of user)
        = Js.split_at_0 email)
  /\ (Auth.username user = None \/ Auth.username user = Some "" ->
      Auth.email user = None
      \/ (exists email,
             Auth.email user = Some email /\ Js.split_at_0 email = "") ->
      Users.username (PriorGameLobby.profile_of user) = "Player")
  /\ (forall email,
         Auth.email user = Some email ->
         Users.email (PriorGameLobby.profile_of user) = email)
  /\ (Auth.email user = None ->
      Users.email (PriorGameLobby.profile_of user) = "").
Proof.
  assert (Htruthy : forall s, Js.truthy s = true <-> s <> "").
  { intros s. unfold Js.truthy. destruct (String.eqb_spec s "");
      simpl; split; congruence. }
  assert (Hfalsy : forall s, s = "" -> Js.truthy s = false)
    by (intros s ->; reflexivity).
  split; [|split; [reflexivity|split; [|split; [|split; [|split]]]]].
  - apply Htruthy. unfold PriorGameLobby.profile_of. simpl.
    now repeat apply split_at_0_truthy_or_else.
  - intros name Hname Hne. unfold PriorGameLobby.profile_of. simpl.
    rewrite Hname. simpl. apply Htruthy in Hne. now rewrite Hne.
  - intros Hname email Hemail Hlocal.
    unfold PriorGameLobby.profile_of. simpl. rewrite Hemail. simpl.
    apply Htruthy in Hlocal. rewrite Hlocal.
    destruct Hname as [-> | ->]; reflexivity.
  - intros Hname Hemail. unfold PriorGameLobby.profile_of. simpl.
    assert (E : Js.or_else (option_map Js.split_at_0 (Auth.email user))
                           "Player" = "Player").
    { destruct Hemail as [-> | (email & -> & Hlocal)]; simpl;
        [reflexivity|]. now rewrite (Hfalsy _ Hlocal). }
    rewrite E. destruct Hname as [-> | ->]; reflexivity.
  - intros email Hemail. unfold PriorGameLobby.profile_of. simpl.
    rewrite Hemail. simpl.
    destruct (String.eqb_spec email "") as [-> | Hne]; [reflexivity|].
    unfold Js.truthy.
    destruct (String.eqb_spec email ""); [contradiction | reflexivity].
  - intros Hemail. unfold PriorGameLobby.profile_of. simpl.
    now rewrite Hemail.
Qed.

End LobbyPaths.

(** Alice's room is inserted and her membership is refused. *)
Lemma createRoom_with_refused_join_witness :
  In {| Lobby.id := "maths"; Lobby.name := "Maths";
        Lobby.host_id := "alice"; Lobby.is_active := true;
        Lobby.player_count := 0 |}
     (Lobby.rooms
        (fst (GameLobby.fetchRooms None
                (snd (fst (GameLobby.createRoom
                             (Sample.signed_in Sample.alice) None "maths"
                             (Some Sample.unreachable_store) "p-host"
                             (Sample.store_with None [])
                             (Sample.lobby_with_name "Maths"))))
                (fst (fst (GameLobby.createRoom
                             (Sample.signed_in Sample.alice) None "maths"
                             (Some Sample.unreachable_store) "p-host"
                             (Sample.store_with None [])
                             (Sample.lobby_with_name "Maths"))))))).
Proof.
  refine (proj1 (proj2 (proj2
            (LobbyPaths.createRoom_with_refused_join
               (Sample.signed_in Sample.alice) Sample.alice
               Sample.unreachable_store None None "maths" "p-host"
               (Sample.store_with None []) (Sample.lobby_with_name "Maths")
               eq_refl eq_refl _ _)))).
  - vm_compute. discriminate.
  - intros p [].
Defined.


(** Carol has no user name in her metadata. *)
Lemma profile_of_witness :
  Users.username (PriorGameLobby.profile_of Scenario.carol) = "carol".
Proof.
  apply (proj1 (proj2 (proj2 (proj2
           (LobbyPaths.profile_of_has_a_user_name Scenario.carol))))
               (or_introl eq_refl) "carol@example.org" eq_refl).
  vm_compute. discriminate.
Defined.

(** ** The room list and the frame of the lobby *)

Module ListFacts.
Import Lobby.

(** X16: when the store answers, [fetchRooms] of
    [src/components/GameLobby.tsx] lists the active rooms of the store
    and nothing else, as many entries as there are active rooms, each
    with the number of membership rows of its room, and it changes no
    other field of the lobby; what was listed before is dropped.  When
    the store answers with an error the list stays as it was and a toast
    is shown; the earlier lobby keeps the list without a word. *)
Theorem fetchRooms_lists_exactly_the_active_rooms db st :
  (forall g,
      In g (rooms (fst (GameLobby.fetchRooms None db st))) <->
      exists r,
        In r (game_rooms db) /\ GameRooms.is_active r = true
        /\ g = {| Lobby.id := GameRooms.id r; Lobby.name := GameRooms.name r;
                  Lobby.host_id := GameRooms.host_id r;
                  Lobby.is_active := true;
                  Lobby.player_count :=
                    Z.of_nat
                      (List.length
                         (filter (fun p => GamePlayers.room_id p
                                           =? GameRooms.id r)
                                 (game_players db))) |})
  /\ List.length (rooms (fst (GameLobby.fetchRooms None db st)))
     = List.length (filter GameRooms.is_active (game_rooms db))
  /\ GameLobby.fetchRooms None db st
     = (setRooms (rooms (fst (GameLobby.fetchRooms None db st))) st, [])
  /\ (forall e,
         fst (GameLobby.fetchRooms (Some e) db st) = st
         /\ In (toast "Error" "Could not fetch game rooms." destructive)
               (snd (GameLobby.fetchRooms (Some e) db st))
         /\ PriorGameLobby.fetchRooms (Some e) db st = st).
Proof.
  destruct (LobbyFacts.GameLobby_fetchRooms_lists_every_active_room db st)
    as (E & _).
  rewrite E. cbn [fst rooms setRooms].
  split; [|split; [|split]].
  - intros g. rewrite in_map_iff. split.
    + intros (r & <- & Hin). apply filter_In in Hin. destruct Hin as [Hin Hact].
      exists r. repeat split; auto.
      rewrite LobbyFacts.with_count_embed_players. now rewrite Hact.
    + intros (r & Hin & Hact & ->). exists r. split.
      * rewrite LobbyFacts.with_count_embed_players. now rewrite Hact.
      * apply filter_In. auto.
  - apply length_map.
  - reflexivity.
  - intros e. simpl. auto.
Qed.

Lemma insert_game_player_appends fault new_id room user db :
  let db' := fst (Sql.insert_game_player fault new_id room user db) in
  exists new_players,
    game_players db' = (game_players db ++ new_players)%list
    /\ List.length new_players <= 1
    /\ (forall p, In p new_players -> GamePlayers.score p = 0%Z)
    /\ game_rooms db' = game_rooms db /\ flashcards db' = flashcards db
    /\ match_history db' = match_history db.
Proof.
  assert (Hsame : exists new_players,
             game_players db = (game_players db ++ new_players)%list
             /\ List.length new_players <= 1
             /\ (forall p, In p new_players -> GamePlayers.score p = 0%Z)
             /\ game_rooms db = game_rooms db /\ flashcards db = flashcards db
             /\ match_history db = match_history db).
  { exists []. rewrite app_nil_r. repeat split; simpl; auto; contradiction. }
  unfold Sql.insert_game_player. destruct fault; [exact Hsame|].
  destruct (existsb _ _); [exact Hsame|].
  destruct (negb _); [exact Hsame|]. simpl.
  eexists. split; [reflexivity|]. repeat split; simpl; auto.
  now intros p [<- | []].
Qed.

Lemma only_appends_refl db : Frames.only_appends db db.
Proof.
  exists [], []. rewrite !app_nil_r.
  repeat split; simpl; auto; contradiction.
Qed.

Lemma only_appends_join fault new_id room user db :
  Frames.only_appends db
    (fst (Sql.insert_game_player fault new_id room user db)).
Proof.
  destruct (insert_game_player_appends fault new_id room user db)
    as (np & Hp & Hlen & Hzero & Hr & Hf & Hh).
  exists [], np. rewrite app_nil_r.
  repeat split; simpl; auto; contradiction.
Qed.

(** A room insert followed by the insert of a membership. *)
Lemma only_appends_create db0 db fault_room room_id name host
      fault_join player_id room user :
  game_rooms db0 = game_rooms db -> game_players db0 = game_players db ->
  flashcards db0 = flashcards db -> match_history db0 = match_history db ->
  Frames.only_appends db
    (fst (Sql.insert_game_room fault_room room_id name host db0))
  /\ Frames.only_appends db
       (fst (Sql.insert_game_player fault_join player_id room user
               (fst (Sql.insert_game_room fault_room room_id name host db0)))).
Proof.
  intros Hr Hp Hf Hh.
  assert (H1 : exists nr,
             let db1 := fst (Sql.insert_game_room fault_room room_id name
                               host db0) in
             game_rooms db1 = (game_rooms db ++ nr)%list
             /\ List.length nr <= 1
             /\ (forall r, In r nr -> GameRooms.is_active r = true
                                      /\ GameRooms.current_card_id r = None)
             /\ game_players db1 = game_players db
             /\ flashcards db1 = flashcards db
             /\ match_history db1 = match_history db).
  { unfold Sql.insert_game_room. destruct fault_room; simpl.
    - exists []. rewrite app_nil_r. repeat split; simpl; auto; contradiction.
    - eexists. rewrite Hr. split; [reflexivity|].
      split; [simpl; lia|].
      split; [intros row [<- | []]; split; reflexivity|].
      auto. }
  destruct H1 as (nr & Hr1 & Hlen & Hnew & Hp1 & Hf1 & Hh1).
  split.
  - exists nr, []. rewrite app_nil_r.
    repeat split; simpl; auto; try contradiction; now apply Hnew.
  - destruct (insert_game_player_appends fault_join player_id room user
                (fst (Sql.insert_game_room fault_room room_id name host db0)))
      as (np & Hp2 & Hlen2 & Hzero & Hr2 & Hf2 & Hh2).
    exists nr, np. cbn zeta in *.
    rewrite Hp2, Hr2, Hf2, Hh2, Hr1, Hp1.
    repeat split; auto; now apply Hnew.
Qed.

(** X17: whatever the replies of the identity provider and of the
    store, [joinRoom] and [createRoom] of both lobbies only append to the
    store: at most one room, active and without a card, and at most one
    membership, with score 0.  They change and delete no stored room or
    membership, and leave the flashcards and the match history alone. *)
Theorem lobby_handlers_only_append :
  (forall auth fault player_id roomId db st,
      Frames.only_appends db
        (snd (fst (GameLobby.joinRoom auth fault player_id roomId db st)))
      /\ Frames.only_appends db
           (snd (fst (PriorGameLobby.joinRoom auth fault player_id roomId
                        db st))))
  /\ (forall auth fault_room room_id fault_join player_id db st,
         Frames.only_appends db
           (snd (fst (GameLobby.createRoom auth fault_room room_id
                        fault_join player_id db st))))
  /\ (forall auth fault_profile fault_new_profile fault_room room_id
             fault_join player_id db st,
         Frames.only_appends db
           (snd (fst (PriorGameLobby.createRoom auth fault_profile
                        fault_new_profile fault_room room_id fault_join
                        player_id db st)))).
Proof.
  split; [|split].
  - intros auth fault pid roomId db st.
    unfold GameLobby.joinRoom, PriorGameLobby.joinRoom.
    destruct (Auth.user auth) as [u|];
      [|split; [|destruct (Auth.error auth)]; apply only_appends_refl].
    pose proof (only_appends_join fault pid roomId (Auth.id u) db) as H.
    destruct (Sql.insert_game_player _ _ _ _ _) as [db1 r]. simpl in H.
    split; [|destruct (Auth.error auth); [apply only_appends_refl|]];
      (destruct (Postgrest.error r) as [e|]; [|exact H]);
      destruct (code e =? "23505"); exact H.
  - intros auth fr rid fj pid db st. unfold GameLobby.createRoom.
    destruct (negb _); [apply only_appends_refl|].
    destruct (Auth.user auth) as [u|]; [|apply only_appends_refl].
    pose proof (fun room =>
                  only_appends_create db db fr rid (newRoomName st)
                    (Auth.id u) fj pid room (Auth.id u)
                    eq_refl eq_refl eq_refl eq_refl) as H.
    destruct (Sql.insert_game_room _ _ _ _ _) as [db1 r]. cbn [fst] in H.
    destruct (Postgrest.error (single_row r)); [exact (proj1 (H ""))|].
    destruct (data (single_row r)) as [d|]; [|exact (proj1 (H ""))].
    specialize (H (GameRooms.id d)). destruct H as [_ H].
    destruct (Sql.insert_game_player _ _ _ _ _) as [db2 rj]. cbn [fst] in H.
    destruct (Postgrest.error rj); exact H.
  - intros auth fp fn fr rid fj pid db st. unfold PriorGameLobby.createRoom.
    destruct (negb _); [apply only_appends_refl|].
    destruct (Auth.error auth); [apply only_appends_refl|].
    destruct (Auth.user auth) as [u|]; [|apply only_appends_refl].
    destruct (CreateFacts.profile_step fp fn u db)
      as (Hr & Hp & Hf & Hh & _).
    destruct (match data (Sql.select_user fp (Auth.id u) db) with
              | Some _ => _ | None => _ end) as [db0 log0].
    cbn [fst snd] in Hr, Hp, Hf, Hh.
    pose proof (fun room =>
                  only_appends_create db0 db fr rid (newRoomName st)
                    (Auth.id u) fj pid room (Auth.id u) Hr Hp Hf Hh) as H.
    destruct (Sql.insert_game_room _ _ _ _ _) as [db1 r]. cbn [fst] in H.
    destruct (Postgrest.error r); [exact (proj1 (H ""))|].
    destruct (data r) as [[|d0 rows]|]; try exact (proj1 (H "")).
    specialize (H (GameRooms.id d0)). destruct H as [_ H].
    now destruct (Sql.insert_game_player _ _ _ _ _) as [db2 rj].
Qed.

Lemma unique_members_players db db' :
  game_players db' = game_players db ->
  Session.unique_members db -> Session.unique_members db'.
Proof.
  intros E H room user. unfold Session.memberships. rewrite E. apply H.
Qed.

(** X18: the constraint [UNIQUE(room_id, user_id)] holds after every
    handler of the room and of both lobbies if it held before, whatever
    the store replies: no sequence of joins, answers and leaves leaves an
    account with two membership rows in a room. *)
Theorem handlers_keep_memberships_unique db :
  Session.unique_members db ->
  (forall roomId user fault_update fault_insert match_id st,
      Session.unique_members
        (snd (fst (GameRoom.submitAnswer roomId user fault_update
                     fault_insert match_id db st))))
  /\ (forall roomId pick fault_cards fault_update st,
         Session.unique_members
           (snd (fst (GameRoom.startNewRound roomId pick fault_cards
                        fault_update db st))))
  /\ (forall roomId user fault,
         Session.unique_members (fst (GameRoom.leaveRoom roomId user fault db)))
  /\ (forall auth fault player_id roomId st,
         Session.unique_members
           (snd (fst (GameLobby.joinRoom auth fault player_id roomId db st)))
         /\ Session.unique_members
              (snd (fst (PriorGameLobby.joinRoom auth fault player_id roomId
                           db st))))
  /\ (forall auth fault_room room_id fault_join player_id st,
         Session.unique_members
           (snd (fst (GameLobby.createRoom auth fault_room room_id fault_join
                        player_id db st))))
  /\ (forall auth fault_profile fault_new_profile fault_room room_id
             fault_join player_id st,
         Session.unique_members
           (snd (fst (PriorGameLobby.createRoom auth fault_profile
                        fault_new_profile fault_room room_id fault_join
                        player_id db st)))).
Proof.
  intros Huniq. repeat split.
  - intros roomId user fu fi mid st. unfold GameRoom.submitAnswer.
    destruct (GameRoom.currentCard st) as [card|]; [|exact Huniq].
    destruct (negb _); [exact Huniq|].
    destruct (isCorrect _ _); [|exact Huniq].
    pose proof (LobbyFacts.update_score_unique fu roomId (Auth.id user)
                  (GameRoom.newScore user st) db Huniq) as H.
    destruct (Sql.update_score _ _ _ _ _) as [db1 r]. simpl in H.
    destruct (Postgrest.error r); simpl; [exact H|].
    apply (unique_members_players db1); [|exact H].
    apply SqlFacts.insert_match_history_players.
  - intros roomId pick fc fu st.
    apply (unique_members_players db); [|exact Huniq].
    apply ScoreFacts.startNewRound_from_players.
  - intros roomId user fault.
    now apply LobbyFacts.delete_game_player_unique.
  - unfold GameLobby.joinRoom.
    destruct (Auth.user auth) as [u|]; [|exact Huniq].
    pose proof (LobbyFacts.insert_game_player_unique fault player_id roomId
                  (Auth.id u) db Huniq) as H.
    destruct (Sql.insert_game_player _ _ _ _ _) as [db1 r]. simpl in H.
    destruct (Postgrest.error r) as [e|]; [|exact H].
    destruct (code e =? "23505"); exact H.
  - unfold PriorGameLobby.joinRoom.
    destruct (Auth.error auth); [exact Huniq|].
    destruct (Auth.user auth) as [u|]; [|exact Huniq].
    pose proof (LobbyFacts.insert_game_player_unique fault player_id roomId
                  (Auth.id u) db Huniq) as H.
    destruct (Sql.insert_game_player _ _ _ _ _) as [db1 r]. simpl in H.
    destruct (Postgrest.error r) as [e|]; [|exact H].
    destruct (code e =? "23505"); exact H.
  - intros auth fr rid fj pid st. unfold GameLobby.createRoom.
    destruct (negb _); [exact Huniq|].
    destruct (Auth.user auth) as [u|]; [|exact Huniq].
    pose proof (ScoreFacts.insert_game_room_players fr rid (newRoomName st)
                  (Auth.id u) db) as E.
    destruct (Sql.insert_game_room _ _ _ _ _) as [db1 r]. simpl in E.
    pose proof (unique_members_players db db1 E Huniq) as H1.
    destruct (Postgrest.error (single_row r)); [exact H1|].
    destruct (data (single_row r)) as [d|]; [|exact H1].
    pose proof (LobbyFacts.insert_game_player_unique fj pid (GameRooms.id d)
                  (Auth.id u) db1 H1) as H.
    destruct (Sql.insert_game_player _ _ _ _ _) as [db2 rj]. simpl in H.
    destruct (Postgrest.error rj); exact H.
  - intros auth fp fn fr rid fj pid st. unfold PriorGameLobby.createRoom.
    destruct (negb _); [exact Huniq|].
    destruct (Auth.error auth); [exact Huniq|].
    destruct (Auth.user auth) as [u|]; [|exact Huniq].
    destruct (CreateFacts.profile_step fp fn u db) as (_ & Hp & _).
    destruct (match data (Sql.select_user fp (Auth.id u) db) with
              | Some _ => _ | None => _ end) as [db0 log0].
    cbn [fst snd] in Hp.
    pose proof (unique_members_players db db0 Hp Huniq) as H0.
    pose proof (ScoreFacts.insert_game_room_players fr rid (newRoomName st)
                  (Auth.id u) db0) as E.
    destruct (Sql.insert_game_room _ _ _ _ _) as [db1 r]. simpl in E.
    pose proof (unique_members_players db0 db1 E H0) as H1.
    destruct (Postgrest.error r); [exact H1|].
    destruct (data r) as [[|d0 rows]|]; try exact H1.
    pose proof (LobbyFacts.insert_game_player_unique fj pid (GameRooms.id d0)
                  (Auth.id u) db1 H1) as H.
    now destruct (Sql.insert_game_player _ _ _ _ _) as [db2 rj].
Qed.

End ListFacts.

(** Bob joins [quiz1], of which he is a member. *)
Lemma handlers_keep_memberships_unique_witness :
  Session.unique_members
    (snd (fst (GameLobby.joinRoom (Sample.signed_in Sample.bob) None "p2"
                 "quiz1" (Sample.bob_in_quiz1 3) Lobby.initial))).
Proof.
  apply (proj1 (proj1 (proj2 (proj2 (proj2
           (ListFacts.handlers_keep_memberships_unique
              (Sample.bob_in_quiz1 3) (bob_in_quiz1_unique_members 3)))))
               (Sample.signed_in Sample.bob) None "p2" "quiz1"
               Lobby.initial)).
Defined.

(** ** The profile of an account *)

Module TriggerFacts.
Import Trigger.

Lemma profile_count_after_insert db row id :
  existsb (fun u => Users.id u =? Users.id row) (users db) = false ->
  List.length (filter (fun u => Users.id u =? id) (users db ++ [row]))
  = if Users.id row =? id then 1
    else List.length (filter (fun u => Users.id u =? id) (users db)).
Proof.
  intros Hnew. rewrite filter_app, length_app. simpl.
  destruct (String.eqb_spec (Users.id row) id) as [<-|_]; simpl; [|lia].
  now rewrite (LobbyFacts.filter_nil_existsb _ _ Hnew).
Qed.

Lemma handle_new_user_one_profile new db :
  unique_profiles db ->
  Postgrest.error (snd (handle_new_user new db)) = None ->
  List.length (filter (fun u => Users.id u =? Auth.id new)
                      (users (fst (handle_new_user new db)))) = 1.
Proof.
  intros Huniq. unfold handle_new_user.
  destruct (Auth.email new) as [email|]; simpl; [|discriminate].
  destruct (existsb (fun u => Users.id u =? Auth.id new) (users db)) eqn:Hid.
  - intros _. simpl. apply LobbyFacts.existsb_filter_length in Hid.
    specialize (Huniq (Auth.id new)). lia.
  - destruct (existsb (fun u => (Users.email u =? email) || _) (users db));
      simpl; [discriminate|].
    intros _. rewrite profile_count_after_insert by exact Hid.
    simpl. now rewrite String.eqb_refl.
Qed.

(** X19: [handle_new_user] keeps the primary key of [users] and is
    idempotent: when it returns without error the account has exactly
    one profile row, and running it again for the same account changes
    nothing and raises nothing.  When it raises (no email, or the email
    or the user name taken by another account), nothing was inserted.
    It touches no table but [users]. *)
Theorem handle_new_user_inserts_the_profile_once new db :
  unique_profiles db ->
  let r := handle_new_user new db in
  unique_profiles (fst r)
  /\ (Postgrest.error (snd r) = None ->
      List.length (filter (fun u => Users.id u =? Auth.id new)
                          (users (fst r))) = 1
      /\ handle_new_user new (fst r) = (fst r, ok tt))
  /\ (Postgrest.error (snd r) <> None -> fst r = db)
  /\ game_rooms (fst r) = game_rooms db
  /\ game_players (fst r) = game_players db
  /\ flashcards (fst r) = flashcards db
  /\ match_history (fst r) = match_history db.
Proof.
  intros Huniq r. subst r. unfold handle_new_user.
  destruct (Auth.email new) as [email|] eqn:Hemail; simpl;
    [|repeat split; auto; discriminate].
  destruct (existsb (fun u => Users.id u =? Auth.id new) (users db)) eqn:Hid.
  - simpl. split; [exact Huniq|]. split; [|auto 6].
    intros _. split; [|now rewrite Hid].
    apply LobbyFacts.existsb_filter_length in Hid.
    specialize (Huniq (Auth.id new)). lia.
  - destruct (existsb (fun u => (Users.email u =? email) || _) (users db))
      eqn:Htaken; simpl.
    + split; [exact Huniq|]. split; [discriminate | auto 6].
    + split.
      { intros id. simpl. rewrite profile_count_after_insert by exact Hid.
        destruct (_ =? id); [lia | apply Huniq]. }
      split; [|split; [congruence | auto]].
      intros _. split.
      * rewrite profile_count_after_insert by exact Hid.
        simpl. now rewrite String.eqb_refl.
      * rewrite existsb_app. simpl.
        now rewrite String.eqb_refl, orb_true_r.
Qed.

Lemma createRoom_users_after_lookup auth fn fr rid fj pid db st row :
  (forall user, Auth.user auth = Some user ->
                data (Sql.select_user None (Auth.id user) db) = Some row) ->
  users (snd (fst (PriorGameLobby.createRoom auth None fn fr rid fj pid db st)))
  = users db.
Proof.
  intros Hrow. unfold PriorGameLobby.createRoom.
  destruct (negb _); [reflexivity|].
  destruct (Auth.error auth); [reflexivity|].
  destruct (Auth.user auth) as [u|]; [|reflexivity].
  rewrite (Hrow u eq_refl).
  unfold Sql.insert_game_room. destruct fr; simpl; [reflexivity|].
  unfold Sql.insert_game_player. destruct fj; simpl; [reflexivity|].
  destruct (existsb _ _); simpl; [reflexivity|].
  destruct (negb _); reflexivity.
Qed.

(** X20: once [handle_new_user] has returned without error for an
    account, the earlier [createRoom] of that account finds the profile
    and leaves the table [users] as it is, whatever else happens in the
    handler.  The user name the trigger stored is the one the handler
    would have chosen whenever the metadata carry a user name that is not
    empty, or carry none and the email has something before its first
    @. *)
Theorem createRoom_after_handle_new_user
        user fn fr rid fj pid db st :
  unique_profiles db ->
  Postgrest.error (snd (handle_new_user user db)) = None ->
  users (snd (fst (PriorGameLobby.createRoom
                     {| Auth.user := Some user; Auth.error := None |}
                     None fn fr rid fj pid
                     (fst (handle_new_user user db)) st)))
  = users (fst (handle_new_user user db))
  /\ (forall email,
         Auth.email user = Some email ->
         (exists name, Auth.username user = Some name /\ name <> "")
         \/ (Auth.username user = None /\ Js.split_at_0 email <> "") ->
         Users.username (profile_row user email)
         = Users.username (PriorGameLobby.profile_of user)).
Proof.
  intros Huniq Hok.
  pose proof (handle_new_user_one_profile user db Huniq Hok) as Hlen.
  split.
  - destruct (filter _ (users (fst (handle_new_user user db))))
      as [|row [|row' rows]] eqn:Hf; simpl in Hlen; try lia.
    apply (createRoom_users_after_lookup _ fn fr rid fj pid _ st row).
    intros u [= <-]. unfold Sql.select_user. now rewrite Hf.
  - intros email Hemail Hname.
    assert (Htruthy : forall t, t <> "" -> Js.truthy t = true).
    { intros t Ht. unfold Js.truthy.
      destruct (String.eqb_spec t ""); [contradiction | reflexivity]. }
    unfold profile_row, PriorGameLobby.profile_of. simpl. rewrite Hemail.
    destruct Hname as [(name & Hn & Hne) | (Hn & Hne)]; rewrite Hn; simpl.
    + now rewrite (Htruthy name Hne).
    + now rewrite (Htruthy _ Hne).
Qed.

End TriggerFacts.

(** Carol signs up into a store without profiles. *)
Lemma handle_new_user_witness :
  Trigger.unique_profiles
    (fst (Trigger.handle_new_user Scenario.carol (Sample.store_with None []))).
Proof.
  apply (TriggerFacts.handle_new_user_inserts_the_profile_once
           Scenario.carol (Sample.store_with None [])).
  intros id. simpl. lia.
Defined.

(** Carol, whose profile the trigger has stored, creates a room. *)
Lemma createRoom_after_handle_new_user_witness :
  users (snd (fst (PriorGameLobby.createRoom
                     {| Auth.user := Some Scenario.carol;
                        Auth.error := None |}
                     None None None "maths" None "p-host"
                     (fst (Trigger.handle_new_user Scenario.carol
                             (Sample.store_with None [])))
                     (Sample.lobby_with_name "Maths"))))
  = users (fst (Trigger.handle_new_user Scenario.carol
                  (Sample.store_with None []))).
Proof.
  refine (proj1 (TriggerFacts.createRoom_after_handle_new_user
                   Scenario.carol None None "maths" None "p-host"
                   (Sample.store_with None [])
                   (Sample.lobby_with_name "Maths") _ eq_refl)).
  intros id. simpl. lia.
Defined.
